(** * Zen Writer: a model of the editor component and of its model client

    The development follows the two source files of the application:
    [app.component.ts] (the editor component: the debounced analysis effect,
    [runAnalysis], [transformContent], [applySuggestion],
    [applyGrammarCorrection], [doResize], [toneColorClass]) and the Gemini
    service ([analyzeText], [transformText]).

    JavaScript strings are sequences of UTF-16 code units, so they are lists
    of [N] here and [length] is the [.length] of the source.  The pieces of the
    browser that the component calls and that are not part of the repository
    are either written out ([trim], [replace], [JSON.parse]) or taken from a
    [Platform] ([DOMParser], Unicode lower-casing). *)

From Stdlib Require Import String Ascii.
From Stdlib Require Import List NArith Bool Arith Lia Floats.
Import ListNotations.

Set Warnings "-register-all".

(* ================================================================== *)
(** ** JavaScript strings *)

Module JS.

Definition jsstring := list N.

(** A literal of the source, written in ASCII. *)
Definition str (s : string) : jsstring :=
  List.map N_of_ascii (list_ascii_of_string s).

(** The double quote, U+0022. *)
Definition dquote : N := 34%N.

(** A literal in which the apostrophe stands for the double quote: JSON
    texts and the prompts of the service are full of double quotes. *)
Definition qstr (s : string) : jsstring :=
  List.map (fun c => if N.eqb c 39 then dquote else c) (str s).

Fixpoint eqb (a b : jsstring) : bool :=
  match a, b with
  | [], [] => true
  | x :: a', y :: b' => N.eqb x y && eqb a' b'
  | _, _ => false
  end.

(** [WhiteSpace] and [LineTerminator] of ECMAScript: what [trim] strips. *)
Definition whiteSpaces : list N :=
  [ 9; 10; 11; 12; 13; 32; 160; 5760;
    8192; 8193; 8194; 8195; 8196; 8197; 8198; 8199; 8200; 8201; 8202;
    8232; 8233; 8239; 8287; 12288; 65279 ]%N.

Definition isWhiteSpace (c : N) : bool := existsb (N.eqb c) whiteSpaces.

Fixpoint trimStart (s : jsstring) : jsstring :=
  match s with
  | c :: s' => if isWhiteSpace c then trimStart s' else s
  | [] => []
  end.

Definition trimEnd (s : jsstring) : jsstring := rev (trimStart (rev s)).

(** [String.prototype.trim]. *)
Definition trim (s : jsstring) : jsstring := trimEnd (trimStart s).

(** [p] is a prefix of [s]. *)
Fixpoint startsWith (p s : jsstring) : bool :=
  match p, s with
  | [], _ => true
  | x :: p', y :: s' => N.eqb x y && startsWith p' s'
  | _ :: _, [] => false
  end.

(** [String.prototype.indexOf]: the first position at which [p] occurs. *)
Fixpoint indexOf (s p : jsstring) : option nat :=
  if startsWith p s then Some 0
  else match s with
       | [] => None
       | _ :: s' => option_map S (indexOf s' p)
       end.

(** [GetSubstitution] of ECMAScript for a string pattern, which has no
    captures: [$$] is a dollar sign, [$&] the matched text, [$`] the text
    before the match and [$'] the text after it; a dollar sign followed by
    anything else ([$1], [$<], ...) stands for itself. *)
Fixpoint GetSubstitution (matched before after template : jsstring) : jsstring :=
  match template with
  | [] => []
  | c :: t =>
      if N.eqb c 36 then
        match t with
        | d :: r =>
            if N.eqb d 36 then 36%N :: GetSubstitution matched before after r
            else if N.eqb d 38 then matched ++ GetSubstitution matched before after r
            else if N.eqb d 96 then before ++ GetSubstitution matched before after r
            else if N.eqb d 39 then after ++ GetSubstitution matched before after r
            else c :: GetSubstitution matched before after t
        | [] => [c]
        end
      else c :: GetSubstitution matched before after t
  end.

(** [String.prototype.replace] with a string pattern and a string
    replacement: only the first occurrence is replaced. *)
Definition replace (s pattern replacement : jsstring) : jsstring :=
  match indexOf s pattern with
  | None => s
  | Some pos =>
      let before := firstn pos s in
      let after := skipn (pos + length pattern) s in
      before ++ GetSubstitution pattern before after replacement ++ after
  end.

(** [s.replace(/\n/g, '<br>')]: every line feed becomes a [<br>]. *)
Definition replaceNewlines (s : jsstring) : jsstring :=
  flat_map (fun c => if N.eqb c 10 then str "<br>" else [c]) s.

(** Lower-casing of the ASCII letters, the part of
    [String.prototype.toLowerCase] that does not need the Unicode tables. *)
Definition asciiLower (s : jsstring) : jsstring :=
  List.map (fun c => if (N.leb 65 c && N.leb c 90)%bool then (c + 32)%N else c) s.

End JS.

Import JS.

(* ================================================================== *)
(** ** JSON values and [JSON.parse] *)

Module JSON.

(** What [JSON.parse] can return.  A number keeps its lexeme: its value as a
    double is never looked at by the application. *)
Inductive json : Type :=
| JNull
| JBool (b : bool)
| JNumber (lexeme : jsstring)
| JString (s : jsstring)
| JArray (elements : list json)
| JObject (members : list (jsstring * json)).

(** The parser reads one code unit at a time, with the values under
    construction on a stack, so it is a structural recursion on the text. *)
Inductive frame : Type :=
| InArray (done : list json)
| InObject (done : list (jsstring * json)) (key : option jsstring).

Inductive strState : Type :=
| SChars
| SEscape
| SUnicode (digits : nat) (value : N).

Inductive numState : Type :=
| NMinus | NZero | NInt | NDot | NFrac | NE | NESign | NExp.

Inductive mode : Type :=
| MValue                   (* a value must come *)
| MValueOrEnd              (* just after an opening bracket *)
| MKeyOrEnd                (* just after an opening brace *)
| MKey                     (* after a comma inside an object *)
| MColon                   (* after a member's key *)
| MAfter                   (* after a value inside an array or object *)
| MString (iskey : bool) (st : strState) (acc : jsstring)
| MLiteral (rest : jsstring) (v : json)
| MNumber (st : numState) (acc : jsstring)
| MDone (v : json)         (* the whole value has been read *)
| MError.

Definition pstate : Type := mode * list frame.

(** [JSONWhiteSpace]: tab, line feed, carriage return and space only. *)
Definition isJsonWhiteSpace (c : N) : bool :=
  N.eqb c 9 || N.eqb c 10 || N.eqb c 13 || N.eqb c 32.

Definition isDigit (c : N) : bool := N.leb 48 c && N.leb c 57.
Definition isDigit19 (c : N) : bool := N.leb 49 c && N.leb c 57.

Definition hexValue (c : N) : option N :=
  if isDigit c then Some (c - 48)%N
  else if N.leb 65 c && N.leb c 70 then Some (c - 55)%N
  else if N.leb 97 c && N.leb c 102 then Some (c - 87)%N
  else None.

Definition failed : pstate := (MError, []).

(** A value is complete: it goes into the enclosing array or object, or it
    is the result. *)
Definition complete (v : json) (stack : list frame) : pstate :=
  match stack with
  | [] => (MDone v, [])
  | InArray done :: st => (MAfter, InArray (v :: done) :: st)
  | InObject done (Some k) :: st => (MAfter, InObject ((k, v) :: done) None :: st)
  | InObject _ None :: _ => failed
  end.

Definition startValue (c : N) (stack : list frame) : pstate :=
  if N.eqb c 34 then (MString false SChars [], stack)
  else if N.eqb c 91 then (MValueOrEnd, InArray [] :: stack)
  else if N.eqb c 123 then (MKeyOrEnd, InObject [] None :: stack)
  else if N.eqb c 110 then (MLiteral (str "ull") JNull, stack)
  else if N.eqb c 116 then (MLiteral (str "rue") (JBool true), stack)
  else if N.eqb c 102 then (MLiteral (str "alse") (JBool false), stack)
  else if N.eqb c 45 then (MNumber NMinus [c], stack)
  else if N.eqb c 48 then (MNumber NZero [c], stack)
  else if isDigit19 c then (MNumber NInt [c], stack)
  else failed.

(** After a complete value: a separator, a closing bracket or brace, or
    white space. *)
Definition afterValue (c : N) (p : pstate) : pstate :=
  match p with
  | (MDone v, st) => if isJsonWhiteSpace c then (MDone v, st) else failed
  | (MAfter, stack) =>
      if isJsonWhiteSpace c then (MAfter, stack)
      else match stack with
           | InArray done :: st =>
               if N.eqb c 44 then (MValue, stack)
               else if N.eqb c 93 then complete (JArray (rev done)) st
               else failed
           | InObject done None :: st =>
               if N.eqb c 44 then (MKey, stack)
               else if N.eqb c 125 then complete (JObject (rev done)) st
               else failed
           | _ => failed
           end
  | _ => failed
  end.

Definition stringChar (iskey : bool) (st : strState) (acc : jsstring)
    (c : N) (stack : list frame) : pstate :=
  match st with
  | SChars =>
      if N.eqb c 34 then
        if iskey then
          match stack with
          | InObject done None :: s' => (MColon, InObject done (Some (rev acc)) :: s')
          | _ => failed
          end
        else complete (JString (rev acc)) stack
      else if N.eqb c 92 then (MString iskey SEscape acc, stack)
      else if N.ltb c 32 then failed
      else (MString iskey SChars (c :: acc), stack)
  | SEscape =>
      let push x := (MString iskey SChars (x :: acc), stack) in
      if N.eqb c 34 then push 34%N
      else if N.eqb c 92 then push 92%N
      else if N.eqb c 47 then push 47%N
      else if N.eqb c 98 then push 8%N
      else if N.eqb c 102 then push 12%N
      else if N.eqb c 110 then push 10%N
      else if N.eqb c 114 then push 13%N
      else if N.eqb c 116 then push 9%N
      else if N.eqb c 117 then (MString iskey (SUnicode 0 0) acc, stack)
      else failed
  | SUnicode n v =>
      match hexValue c with
      | Some h =>
          let v' := (v * 16 + h)%N in
          if Nat.eqb n 3 then (MString iskey SChars (v' :: acc), stack)
          else (MString iskey (SUnicode (S n) v') acc, stack)
      | None => failed
      end
  end.

Definition isExponentMark (c : N) : bool := N.eqb c 101 || N.eqb c 69.

Definition numberChar (st : numState) (acc : jsstring) (c : N)
    (stack : list frame) : pstate :=
  let continue st' := (MNumber st' (c :: acc), stack) in
  let finish := afterValue c (complete (JNumber (rev acc)) stack) in
  match st with
  | NMinus =>
      if N.eqb c 48 then continue NZero
      else if isDigit19 c then continue NInt else failed
  | NZero =>
      if N.eqb c 46 then continue NDot
      else if isExponentMark c then continue NE else finish
  | NInt =>
      if isDigit c then continue NInt
      else if N.eqb c 46 then continue NDot
      else if isExponentMark c then continue NE else finish
  | NDot => if isDigit c then continue NFrac else failed
  | NFrac =>
      if isDigit c then continue NFrac
      else if isExponentMark c then continue NE else finish
  | NE =>
      if N.eqb c 43 || N.eqb c 45 then continue NESign
      else if isDigit c then continue NExp else failed
  | NESign => if isDigit c then continue NExp else failed
  | NExp => if isDigit c then continue NExp else finish
  end.

Definition step (p : pstate) (c : N) : pstate :=
  let '(m, stack) := p in
  match m with
  | MValue => if isJsonWhiteSpace c then p else startValue c stack
  | MValueOrEnd =>
      if isJsonWhiteSpace c then p
      else if N.eqb c 93 then
        match stack with
        | InArray _ :: st => complete (JArray []) st
        | _ => failed
        end
      else startValue c stack
  | MKeyOrEnd =>
      if isJsonWhiteSpace c then p
      else if N.eqb c 125 then
        match stack with
        | InObject _ _ :: st => complete (JObject []) st
        | _ => failed
        end
      else if N.eqb c 34 then (MString true SChars [], stack)
      else failed
  | MKey =>
      if isJsonWhiteSpace c then p
      else if N.eqb c 34 then (MString true SChars [], stack)
      else failed
  | MColon =>
      if isJsonWhiteSpace c then p
      else if N.eqb c 58 then (MValue, stack)
      else failed
  | MAfter | MDone _ => afterValue c p
  | MString iskey st acc => stringChar iskey st acc c stack
  | MLiteral rest v =>
      match rest with
      | x :: rest' =>
          if N.eqb c x then
            match rest' with
            | [] => complete v stack
            | _ => (MLiteral rest' v, stack)
            end
          else failed
      | [] => failed
      end
  | MNumber st acc => numberChar st acc c stack
  | MError => failed
  end.

(** The end of the text: a value must have been read; a number at the top
    level ends here. *)
Definition finish (p : pstate) : option json :=
  match p with
  | (MDone v, []) => Some v
  | (MNumber st acc, []) =>
      match st with
      | NZero | NInt | NFrac | NExp => Some (JNumber (rev acc))
      | _ => None
      end
  | _ => None
  end.

(** [JSON.parse(text)]; [None] stands for the [SyntaxError] it throws. *)
Definition parse (text : jsstring) : option json :=
  finish (fold_left step text (MValue, [])).

(** Reading the property [k] of a parsed object: with a repeated key the
    last member wins. *)
Fixpoint member (k : jsstring) (ms : list (jsstring * json)) : option json :=
  match ms with
  | [] => None
  | (k', v) :: ms' =>
      match member k ms' with
      | Some v' => Some v'
      | None => if JS.eqb k k' then Some v else None
      end
  end.

End JSON.

Import JSON.

(* ================================================================== *)
(** ** The platform *)

(** What the code takes from the browser and is not written out here:
    [stripHtml] is [new DOMParser().parseFromString(html, 'text/html')
    .body.textContent], or the empty string for none, and [toLowerCase] is
    [String.prototype.toLowerCase]. *)
Class Platform : Type := {
  stripHtml : jsstring -> jsstring;
  toLowerCase : jsstring -> jsstring
}.

(** A small platform to run the model on: tags are cut out of the markup and
    only the ASCII letters are lower-cased.  On markup without character
    references, comments and raw-text elements, and on ASCII text, this is
    what a browser computes. *)
Fixpoint stripTags (inTag : bool) (html : jsstring) : jsstring :=
  match html with
  | [] => []
  | c :: r =>
      if inTag then stripTags (negb (N.eqb c 62)) r
      else if N.eqb c 60 then stripTags true r
      else c :: stripTags false r
  end.

Definition simplePlatform : Platform :=
  {| stripHtml := stripTags false; toLowerCase := asciiLower |}.

(** Exceptions of the code. *)
Inductive JsError : Type :=
| ApiError       (* the promise of [generateContent] was rejected *)
| TypeError
| SyntaxError.   (* thrown by [JSON.parse] *)

Inductive outcome (A : Type) : Type :=
| Returned (a : A)
| Thrown (e : JsError).
Arguments Returned {A} a.
Arguments Thrown {A} e.

(* ================================================================== *)
(** ** The Gemini service *)

Module GeminiService.

Definition analysisModel : jsstring := str "gemini-2.5-flash".

(** A call of [ai.models.generateContent]; [structured] says that the
    config asks for JSON of the analysis schema. *)
Record Request : Type := {
  model : jsstring;
  contents : jsstring;
  structured : bool
}.

(** How the call settles: the promise is rejected, or it is fulfilled with
    a response whose [text] is a string or [undefined]. *)
Inductive Response : Type :=
| Rejected
| Replied (text : option jsstring).

(** [analyzeText], up to the [await]. *)
Definition analyzeText_request (text : jsstring) : Request :=
  {| model := analysisModel;
     contents :=
       str "Analyze the following text and provide feedback on its tone, suggest three alternative phrasings, and list any grammatical mistakes. Text: "
       ++ [dquote] ++ text ++ [dquote];
     structured := true |}.

(** [analyzeText], after the [await]: [JSON.parse(response.text.trim())]. *)
Definition analyzeText_result (r : Response) : outcome json :=
  match r with
  | Rejected => Thrown ApiError
  | Replied None => Thrown TypeError
  | Replied (Some text) =>
      let jsonString := trim text in
      match JSON.parse jsonString with
      | Some v => Returned v
      | None => Thrown SyntaxError
      end
  end.

Section WithPlatform.
Context {platform : Platform}.

(** The [switch] of [transformText]. *)
Definition transformPrompt (text action : jsstring) : jsstring :=
  let key := toLowerCase action in
  if JS.eqb key (str "shorten") then
    str "Make the following text more concise: " ++ [dquote] ++ text ++ [dquote]
  else if JS.eqb key (str "formalize") then
    str "Rewrite the following text in a more formal and professional tone: "
    ++ [dquote] ++ text ++ [dquote]
  else
    action ++ str " the following text: " ++ [dquote] ++ text ++ [dquote].

Definition transformText_request (text action : jsstring) : Request :=
  {| model := analysisModel;
     contents := transformPrompt text action;
     structured := false |}.

End WithPlatform.

(** [transformText], after the [await]: [response.text] as it is. *)
Definition transformText_result (r : Response) : outcome (option jsstring) :=
  match r with
  | Rejected => Thrown ApiError
  | Replied text => Returned text
  end.

End GeminiService.

Import GeminiService.

(* ================================================================== *)
(** ** The analysis model *)

(** The interfaces of [analysis.model.ts], and a result of that shape as
    [JSON.parse] returns it. *)
Record Tone : Type := {
  name : jsstring;
  score : jsstring                     (* the lexeme of the number *)
}.

Record GrammarMistake : Type := {
  mistake : jsstring;
  correction : jsstring;
  explanation : jsstring
}.

Record AnalysisResult : Type := {
  tone : Tone;
  suggestions : list jsstring;
  grammarMistakes : list GrammarMistake
}.

Definition jsonOfMistake (m : GrammarMistake) : json :=
  JObject [ (str "mistake", JString (mistake m));
            (str "correction", JString (correction m));
            (str "explanation", JString (explanation m)) ].

Definition jsonOfResult (a : AnalysisResult) : json :=
  JObject [ (str "tone", JObject [ (str "name", JString (name (tone a)));
                                    (str "score", JNumber (score (tone a))) ]);
            (str "suggestions", JArray (List.map JString (suggestions a)));
            (str "grammarMistakes", JArray (List.map jsonOfMistake (grammarMistakes a))) ].

(* ================================================================== *)
(** ** The component and the browser around it *)

Module App.

(** The signals and fields of [AppComponent] (the theme is left out). *)
Record Component : Type := {
  editorContent : jsstring;
  analysis : json;                    (* [JNull] is [null] *)
  isLoading : bool;
  error : option jsstring;            (* [None] is [null] *)
  showMoreActions : bool;
  editorWidthPercent : float;
  debounceTimeout : option N          (* [None] is [undefined] *)
}.

(** A timer of [setTimeout]: its callback is [() => this.runAnalysis(text)]. *)
Record Timer : Type := {
  timer_id : N;
  timer_due : N;
  timer_text : jsstring
}.

(** What awaits the answer of the model. *)
Inductive Pending : Type :=
| PendingAnalysis (text : jsstring)
| PendingTransform (hasSelection : bool) (action : jsstring).

(** [document.execCommand('insertText', false, newText)]. *)
Inductive DomCommand : Type :=
| InsertText (newText : option jsstring).

(** The component in its browser: the clock (in milliseconds), the timers
    that have not fired, the calls of the model that have not settled, and
    what has been observed so far: the calls made, oldest first, with the
    time of each; the analysis calls settled, latest first, with the text
    analysed and whether [analyzeText] returned; the commands sent to the
    document. *)
Record World : Type := {
  app : Component;
  now : N;
  timers : list Timer;
  nextTimerId : N;
  inflight : list (N * Pending);
  nextRequestId : N;
  network : list (N * Request);
  settled : list (jsstring * bool);
  dom : list DomCommand
}.

Definition update (f : Component -> Component) (w : World) : World :=
  {| app := f (app w); now := now w; timers := timers w;
     nextTimerId := nextTimerId w; inflight := inflight w;
     nextRequestId := nextRequestId w; network := network w;
     settled := settled w; dom := dom w |}.

Definition set_editorContent (v : jsstring) : World -> World :=
  update (fun c =>
    {| editorContent := v; analysis := analysis c; isLoading := isLoading c;
       error := error c; showMoreActions := showMoreActions c;
       editorWidthPercent := editorWidthPercent c;
       debounceTimeout := debounceTimeout c |}).

Definition set_analysis (v : json) : World -> World :=
  update (fun c =>
    {| editorContent := editorContent c; analysis := v; isLoading := isLoading c;
       error := error c; showMoreActions := showMoreActions c;
       editorWidthPercent := editorWidthPercent c;
       debounceTimeout := debounceTimeout c |}).

Definition set_isLoading (v : bool) : World -> World :=
  update (fun c =>
    {| editorContent := editorContent c; analysis := analysis c; isLoading := v;
       error := error c; showMoreActions := showMoreActions c;
       editorWidthPercent := editorWidthPercent c;
       debounceTimeout := debounceTimeout c |}).

Definition set_error (v : option jsstring) : World -> World :=
  update (fun c =>
    {| editorContent := editorContent c; analysis := analysis c;
       isLoading := isLoading c; error := v;
       showMoreActions := showMoreActions c;
       editorWidthPercent := editorWidthPercent c;
       debounceTimeout := debounceTimeout c |}).

Definition set_showMoreActions (v : bool) : World -> World :=
  update (fun c =>
    {| editorContent := editorContent c; analysis := analysis c;
       isLoading := isLoading c; error := error c; showMoreActions := v;
       editorWidthPercent := editorWidthPercent c;
       debounceTimeout := debounceTimeout c |}).

Definition set_editorWidthPercent (v : float) : World -> World :=
  update (fun c =>
    {| editorContent := editorContent c; analysis := analysis c;
       isLoading := isLoading c; error := error c;
       showMoreActions := showMoreActions c; editorWidthPercent := v;
       debounceTimeout := debounceTimeout c |}).

Definition set_debounceTimeout (v : option N) : World -> World :=
  update (fun c =>
    {| editorContent := editorContent c; analysis := analysis c;
       isLoading := isLoading c; error := error c;
       showMoreActions := showMoreActions c;
       editorWidthPercent := editorWidthPercent c; debounceTimeout := v |}).

(** *** The browser: timers and calls *)

(** [setTimeout(callback, delay)] returns a handle never given before. *)
Definition setTimeout (text : jsstring) (delay : N) (w : World) : N * World :=
  let id := nextTimerId w in
  (id,
   {| app := app w; now := now w;
      timers := timers w
                ++ [ {| timer_id := id; timer_due := (now w + delay)%N;
                        timer_text := text |} ];
      nextTimerId := (id + 1)%N; inflight := inflight w;
      nextRequestId := nextRequestId w; network := network w;
      settled := settled w; dom := dom w |}).

(** [clearTimeout(id)]: a handle that names no pending timer is ignored. *)
Definition clearTimeout (id : N) (w : World) : World :=
  {| app := app w; now := now w;
     timers := filter (fun t => negb (N.eqb (timer_id t) id)) (timers w);
     nextTimerId := nextTimerId w; inflight := inflight w;
     nextRequestId := nextRequestId w; network := network w;
     settled := settled w; dom := dom w |}.

(** A call of the model goes out; [k] is what awaits its answer. *)
Definition dispatch (r : Request) (k : Pending) (w : World) : World :=
  {| app := app w; now := now w; timers := timers w;
     nextTimerId := nextTimerId w;
     inflight := inflight w ++ [(nextRequestId w, k)];
     nextRequestId := (nextRequestId w + 1)%N;
     network := network w ++ [(now w, r)];
     settled := settled w; dom := dom w |}.

Definition execCommand (c : DomCommand) (w : World) : World :=
  {| app := app w; now := now w; timers := timers w;
     nextTimerId := nextTimerId w; inflight := inflight w;
     nextRequestId := nextRequestId w; network := network w;
     settled := settled w; dom := dom w ++ [c] |}.

(** *** The methods of the component *)

Section Methods.
Context {platform : Platform}.

Definition analysisFailedMessage : jsstring :=
  str "Failed to analyze text. The API key may be invalid or the service is unavailable.".

Definition transformFailedMessage (action : jsstring) : jsstring :=
  str "Failed to '" ++ action ++ str "' text. Please try again.".

(** [runAnalysis(text)] up to its [await]: nothing happens for the empty
    string; otherwise the flags are set and [analyzeText] is called. *)
Definition runAnalysis (text : jsstring) (w : World) : World :=
  match text with
  | [] => w
  | _ :: _ =>
      dispatch (analyzeText_request text) (PendingAnalysis text)
        (set_error None (set_isLoading true w))
  end.

(** [runAnalysis] from its [await] on: [try], [catch] and [finally]. *)
Definition runAnalysis_resume (r : outcome json) (w : World) : World :=
  let w1 :=
    match r with
    | Returned result => set_analysis result w
    | Thrown _ => set_analysis JNull (set_error (Some analysisFailedMessage) w)
    end in
  set_isLoading false w1.

(** [if (this.debounceTimeout) clearTimeout(this.debounceTimeout)]: a
    handle is a number, and zero would not pass the test. *)
Definition cancelDebounce (w : World) : World :=
  match debounceTimeout (app w) with
  | Some id => if N.eqb id 0 then w else clearTimeout id w
  | None => w
  end.

(** The body of the debounce effect of the constructor. *)
Definition debounceEffect (w : World) : World :=
  let content := editorContent (app w) in
  let textContent := stripHtml content in
  let w1 := cancelDebounce w in
  if 10 <? length (trim textContent) then
    let '(id, w2) := setTimeout textContent 1000 w1 in
    set_debounceTimeout (Some id) w2
  else
    set_analysis JNull w1.

(** The content signal takes a new value and the effect runs again. *)
Definition contentChange (html : jsstring) (w : World) : World :=
  debounceEffect (set_editorContent html w).

(** [editorContent.set(v)]: a signal set to the value it holds notifies
    nobody. *)
Definition editorContent_set (v : jsstring) (w : World) : World :=
  if JS.eqb v (editorContent (app w)) then w else contentChange v w.

Definition onContentChange (innerHTML : jsstring) (w : World) : World :=
  editorContent_set innerHTML w.

Definition applySuggestion (suggestion : jsstring) (w : World) : World :=
  editorContent_set (str "<div>" ++ replaceNewlines suggestion ++ str "</div>") w.

Definition applyGrammarCorrection (mistake correction : jsstring) (w : World)
  : World :=
  editorContent_set (JS.replace (editorContent (app w)) mistake correction) w.

(** [window.getSelection()], as far as [transformContent] looks at it. *)
Record Selection : Type := {
  isCollapsed : bool;
  selectedText : jsstring             (* [selection.toString()] *)
}.

Definition hasSelection (selection : option Selection) : bool :=
  match selection with
  | Some s => negb (isCollapsed s) && (0 <? length (trim (selectedText s)))
  | None => false
  end.

(** [selection!.toString()]. *)
Definition selectionToString (selection : option Selection) : jsstring :=
  match selection with
  | Some s => selectedText s
  | None => []
  end.

(** [transformContent(action)] up to its [await]. *)
Definition transformContent (action : jsstring) (selection : option Selection)
    (w : World) : World :=
  let w0 := set_showMoreActions false w in
  let textToTransform :=
    if hasSelection selection then selectionToString selection
    else stripHtml (editorContent (app w0)) in
  match textToTransform with
  | [] => w0
  | _ :: _ =>
      dispatch (transformText_request textToTransform action)
        (PendingTransform (hasSelection selection) action)
        (set_error None (set_isLoading true w0))
  end.

(** [transformContent] from its [await] on.  Without a selection the new
    text is read with [newText.replace], which throws when it is
    [undefined]. *)
Definition transformContent_resume (hasSelection : bool) (action : jsstring)
    (r : outcome (option jsstring)) (w : World) : World :=
  let failure := set_error (Some (transformFailedMessage action)) w in
  let w1 :=
    match r with
    | Returned newText =>
        if hasSelection then execCommand (InsertText newText) w
        else match newText with
             | Some t =>
                 editorContent_set
                   (str "<div>" ++ replaceNewlines t ++ str "</div>") w
             | None => failure
             end
    | Thrown _ => failure
    end in
  set_isLoading false w1.

(** [doResize(event)], with [event.clientX] and [window.innerWidth]. *)
Definition doResize (clientX innerWidth : float) (w : World) : World :=
  let newWidth := (clientX / innerWidth * 100)%float in
  if (PrimFloat.ltb 25 newWidth && PrimFloat.ltb newWidth 75)%bool then
    set_editorWidthPercent newWidth w
  else w.

(** *** The tone colour *)

(** What [toneColorClass] returns: a class string of the table, or, because
    [toneColorMap[toneName]] also reads what an object literal inherits,
    a member of [Object.prototype]. *)
Inductive ClassValue : Type :=
| ClassString (s : jsstring)
| Inherited (property : jsstring).

Definition defaultToneClass : jsstring := str "bg-gray-400 dark:bg-gray-600".

Definition toneColorMap : list (jsstring * jsstring) :=
  [ (str "formal", str "bg-green-500"); (str "professional", str "bg-green-500");
    (str "confident", str "bg-blue-500"); (str "joyful", str "bg-yellow-400");
    (str "encouraging", str "bg-teal-400"); (str "friendly", str "bg-sky-400");
    (str "angry", str "bg-red-600"); (str "critical", str "bg-red-500");
    (str "sad", str "bg-indigo-500"); (str "defensive", str "bg-orange-500");
    (str "frustrated", str "bg-rose-600");
    (str "casual", str "bg-sky-500"); (str "informal", str "bg-sky-500");
    (str "neutral", str "bg-slate-500"); (str "objective", str "bg-slate-500");
    (str "sarcastic", str "bg-purple-500") ].

(** The names an object literal inherits from [Object.prototype]. *)
Definition objectPrototypeNames : list jsstring :=
  [ str "constructor"; str "hasOwnProperty"; str "isPrototypeOf";
    str "propertyIsEnumerable"; str "toLocaleString"; str "toString";
    str "valueOf"; str "__proto__"; str "__defineGetter__";
    str "__defineSetter__"; str "__lookupGetter__"; str "__lookupSetter__" ].

Fixpoint ownProperty (key : jsstring) (table : list (jsstring * jsstring))
  : option jsstring :=
  match table with
  | [] => None
  | (k, v) :: rest => if JS.eqb key k then Some v else ownProperty key rest
  end.

(** [toneColorMap[key]]; [None] is [undefined]. *)
Definition toneColorMap_get (key : jsstring) : option ClassValue :=
  match ownProperty key toneColorMap with
  | Some color => Some (ClassString color)
  | None =>
      if existsb (JS.eqb key) objectPrototypeNames then Some (Inherited key)
      else None
  end.

(** [x.tone] and [x.name] on what [JSON.parse] returned: [null] has no
    properties; an object has its members; numbers, strings, booleans and
    arrays have neither a [tone] nor a [name]. *)
Definition getProperty (x : option json) (key : jsstring)
  : outcome (option json) :=
  match x with
  | None | Some JNull => Thrown TypeError
  | Some (JObject members) => Returned (member key members)
  | Some _ => Returned None
  end.

(** [x.toLowerCase()]: only a string has the method. *)
Definition call_toLowerCase (x : option json) : outcome jsstring :=
  match x with
  | Some (JString s) => Returned (toLowerCase s)
  | _ => Thrown TypeError
  end.

(** The computed signal [toneColorClass]. *)
Definition toneColorClass (w : World) : outcome ClassValue :=
  match analysis (app w) with
  | JNull => Returned (ClassString defaultToneClass)
  | a =>
      match getProperty (Some a) (str "tone") with
      | Thrown e => Thrown e
      | Returned tone =>
          match getProperty tone (str "name") with
          | Thrown e => Thrown e
          | Returned name =>
              match call_toLowerCase name with
              | Thrown e => Thrown e
              | Returned toneName =>
                  match toneName with
                  | [] => Returned (ClassString defaultToneClass)
                  | _ :: _ =>
                      match toneColorMap_get toneName with
                      | Some (ClassString []) | None =>
                          Returned (ClassString defaultToneClass)
                      | Some v => Returned v
                      end
                  end
              end
          end
      end
  end.

(** *** Time and answers *)

Definition set_now (t : N) (w : World) : World :=
  {| app := app w; now := t; timers := timers w;
     nextTimerId := nextTimerId w; inflight := inflight w;
     nextRequestId := nextRequestId w; network := network w;
     settled := settled w; dom := dom w |}.

Definition set_timers (ts : list Timer) (w : World) : World :=
  {| app := app w; now := now w; timers := ts;
     nextTimerId := nextTimerId w; inflight := inflight w;
     nextRequestId := nextRequestId w; network := network w;
     settled := settled w; dom := dom w |}.

(** A timer fires when it is due and runs its callback. *)
Definition fire (w : World) (t : Timer) : World :=
  runAnalysis (timer_text t) (set_now (timer_due t) w).

Definition isDue (target : N) (t : Timer) : bool := N.leb (timer_due t) target.

(** [dt] milliseconds pass: the timers due by then fire, in the order in
    which they were set. *)
Definition elapse (dt : N) (w : World) : World :=
  let target := (now w + dt)%N in
  let due := filter (isDue target) (timers w) in
  let rest := filter (fun t => negb (isDue target t)) (timers w) in
  set_now target (fold_left fire due (set_timers rest w)).

Fixpoint lookupPending (id : N) (l : list (N * Pending)) : option Pending :=
  match l with
  | [] => None
  | (i, k) :: rest => if N.eqb i id then Some k else lookupPending id rest
  end.

Definition removePending (id : N) (w : World) : World :=
  {| app := app w; now := now w; timers := timers w;
     nextTimerId := nextTimerId w;
     inflight := filter (fun p => negb (N.eqb (fst p) id)) (inflight w);
     nextRequestId := nextRequestId w; network := network w;
     settled := settled w; dom := dom w |}.

Definition isReturned {A : Type} (r : outcome A) : bool :=
  match r with Returned _ => true | Thrown _ => false end.

Definition recordSettled (text : jsstring) (ok : bool) (w : World) : World :=
  {| app := app w; now := now w; timers := timers w;
     nextTimerId := nextTimerId w; inflight := inflight w;
     nextRequestId := nextRequestId w; network := network w;
     settled := (text, ok) :: settled w; dom := dom w |}.

(** The call [id] settles with [r] and the method that awaits it goes on. *)
Definition settle (id : N) (r : Response) (w : World) : World :=
  match lookupPending id (inflight w) with
  | None => w
  | Some (PendingAnalysis text) =>
      let result := analyzeText_result r in
      runAnalysis_resume result
        (recordSettled text (isReturned result) (removePending id w))
  | Some (PendingTransform sel action) =>
      transformContent_resume sel action (transformText_result r)
        (removePending id w)
  end.

(** *** The life of the component *)

Definition initialContent : jsstring :=
  qstr "<div>Welcome to Zen Writer! Start typing here and see the magic happen. For example, try writing: 'i think ur idea is bad and we shud not proceed with it.'</div>".

Definition initialComponent : Component :=
  {| editorContent := initialContent; analysis := JNull; isLoading := false;
     error := None; showMoreActions := false; editorWidthPercent := 66%float;
     debounceTimeout := None |}.

Definition emptyWorld : World :=
  {| app := initialComponent; now := 0; timers := []; nextTimerId := 1;
     inflight := []; nextRequestId := 1; network := []; settled := [];
     dom := [] |}.

(** The constructor calls [runAnalysis] on the initial content; the effect
    it has registered runs for the first time right after. *)
Definition constructed : World :=
  debounceEffect (runAnalysis (stripHtml initialContent) emptyWorld).

Inductive Event : Type :=
| Input (innerHTML : jsstring)
| ApplySuggestion (suggestion : jsstring)
| ApplyGrammarCorrection (mistake correction : jsstring)
| TransformContent (action : jsstring) (selection : option Selection)
| Resize (clientX innerWidth : float)
| Elapse (dt : N)
| Settle (id : N) (r : Response).

Definition step (w : World) (e : Event) : World :=
  match e with
  | Input innerHTML => onContentChange innerHTML w
  | ApplySuggestion s => applySuggestion s w
  | ApplyGrammarCorrection m c => applyGrammarCorrection m c w
  | TransformContent action selection => transformContent action selection w
  | Resize x width => doResize x width w
  | Elapse dt => elapse dt w
  | Settle id r => settle id r w
  end.

Inductive reachable : World -> Prop :=
| reachable_constructed : reachable constructed
| reachable_step w e : reachable w -> reachable (step w e).

End Methods.

End App.

Import App.

(* ================================================================== *)
(** ** The theme *)

Module Theme.

(** The theme signal, the item [zen-writer-theme] of [localStorage] ([None]
    when there is none) and whether [document.documentElement] has the
    class [dark].  The signal is typed ['light' | 'dark'], but what is read
    from the storage is cast to that type unchecked, so it is a string. *)
Record ThemeState : Type := {
  theme : jsstring;
  storedTheme : option jsstring;
  darkClass : bool
}.

Definition set_theme (v : jsstring) (s : ThemeState) : ThemeState :=
  {| theme := v; storedTheme := storedTheme s; darkClass := darkClass s |}.

(** [initializeTheme()], with [prefersDark] the answer of [matchMedia]: a
    saved theme that is not the empty string wins. *)
Definition initializeTheme (prefersDark : bool) (s : ThemeState) : ThemeState :=
  match storedTheme s with
  | Some (c :: t) => set_theme (c :: t) s
  | _ => if prefersDark then set_theme (str "dark") s
         else set_theme (str "light") s
  end.

(** The effect for theme switching and persistence. *)
Definition themeEffect (s : ThemeState) : ThemeState :=
  let currentTheme := theme s in
  {| theme := currentTheme;
     storedTheme := Some currentTheme;
     darkClass := JS.eqb currentTheme (str "dark") |}.

(** [theme.set(v)] once the effect is registered: a new value runs it. *)
Definition theme_set (v : jsstring) (s : ThemeState) : ThemeState :=
  if JS.eqb v (theme s) then s else themeEffect (set_theme v s).

(** [toggleTheme()]. *)
Definition toggleTheme (s : ThemeState) : ThemeState :=
  theme_set (if JS.eqb (theme s) (str "light") then str "dark" else str "light") s.

(** The page starts: the signal is created as [light], the constructor calls
    [initializeTheme] and registers the effect, which then runs for the
    first time. *)
Definition start (saved : option jsstring) (prefersDark hadDarkClass : bool)
  : ThemeState :=
  themeEffect
    (initializeTheme prefersDark
       {| theme := str "light"; storedTheme := saved; darkClass := hadDarkClass |}).

(** The states of the theme while the page runs. *)
Inductive running : ThemeState -> Prop :=
| running_start saved prefersDark hadDarkClass :
    running (start saved prefersDark hadDarkClass)
| running_toggle s : running s -> running (toggleTheme s).

End Theme.

(* ================================================================== *)
(** ** The resize handle and its listeners *)

Module Drag.

(** The component in its page, with what [startResize] and [stopResize]
    attach to the document: [boundDoResize] on [mousemove] and
    [boundStopResize], once, on [mouseup].  Attaching a listener that is
    attached already adds nothing, so a flag for each is enough. *)
Record Page : Type := {
  world : World;
  mousemoveListener : bool;
  mouseupListener : bool
}.

(** [startResize(event)]. *)
Definition startResize (p : Page) : Page :=
  {| world := world p; mousemoveListener := true; mouseupListener := true |}.

(** [stopResize()]. *)
Definition stopResize (p : Page) : Page :=
  {| world := world p; mousemoveListener := false;
     mouseupListener := mouseupListener p |}.

Inductive MouseEvent : Type :=
| Mousedown                                  (* [startResize] is called *)
| Mousemove (clientX innerWidth : float)
| Mouseup.

(** The document dispatches a mouse event to the listeners it has; the
    listener of [mouseup] was added with [once] and goes when it runs. *)
Definition dispatch (p : Page) (e : MouseEvent) : Page :=
  match e with
  | Mousedown => startResize p
  | Mousemove clientX innerWidth =>
      if mousemoveListener p then
        {| world := doResize clientX innerWidth (world p);
           mousemoveListener := mousemoveListener p;
           mouseupListener := mouseupListener p |}
      else p
  | Mouseup =>
      if mouseupListener p then
        stopResize {| world := world p;
                      mousemoveListener := mousemoveListener p;
                      mouseupListener := false |}
      else p
  end.

(** The page before any mouse event. *)
Definition loaded (w : World) : Page :=
  {| world := w; mousemoveListener := false; mouseupListener := false |}.

End Drag.

(* ================================================================== *)
(** ** The actions of the menu *)

(** [moreActions] of the component. *)
Definition moreActions : list jsstring :=
  [ str "Make Funny"; str "Make Sarcastic"; str "Make Encouraging";
    str "Make Frustrated"; str "Simplify" ].

(* ================================================================== *)
(** * The vocabulary of the statements *)

(** ** Strings *)

(** [p] occurs in [s] at position [n]. *)
Definition occursAt (p s : jsstring) (n : nat) : Prop :=
  exists before after, s = before ++ p ++ after /\ length before = n.

(** ** The parser *)

(** In a run of the parser the rest of a literal has no white space. *)
Definition literalOk (p : pstate) : Prop :=
  match fst p with
  | MLiteral rest _ => forallb (fun x => negb (isWhiteSpace x)) rest = true
  | _ => True
  end.

(** ** The prompts of [transformText] *)

Definition shortenPrompt (text : jsstring) : jsstring :=
  qstr "Make the following text more concise: '" ++ text ++ [dquote].

Definition formalizePrompt (text : jsstring) : jsstring :=
  qstr "Rewrite the following text in a more formal and professional tone: '"
  ++ text ++ [dquote].

(** The generic template: the action, as it was given, in front. *)
Definition genericPrompt (action text : jsstring) : jsstring :=
  action ++ qstr " the following text: '" ++ text ++ [dquote].

(** ** The resize *)

(** The width that [doResize] computes from the cursor. *)
Definition widthOfCursor (clientX innerWidth : float) : float :=
  (clientX / innerWidth * 100)%float.

(** A width is strictly inside [(25, 75)]; not a number is outside. *)
Definition strictlyInside (width : float) : Prop :=
  PrimFloat.ltb 25 width = true /\ PrimFloat.ltb width 75 = true.

(** ** The debounce *)

(** The test of the effect: more than ten code units after trimming. *)
Definition longEnough (text : jsstring) : bool := 10 <? length (trim text).

(** The trigger that the effect schedules for the text [text]. *)
Definition trigger (id time : N) (text : jsstring) : Timer :=
  {| timer_id := id; timer_due := (time + 1000)%N; timer_text := text |}.

(** [w'] has the timers, the next handle and the stored handle of [w]. *)
Definition sameSchedule (w w' : World) : Prop :=
  timers w' = timers w
  /\ nextTimerId w' = nextTimerId w
  /\ debounceTimeout (app w') = debounceTimeout (app w).

(** At most one timer is pending, and it is the one whose handle the
    component holds. *)
Definition singleTrigger (w : World) : Prop :=
  nextTimerId w <> 0%N
  /\ (timers w = []
      \/ exists t, timers w = [t]
                   /\ debounceTimeout (app w) = Some (timer_id t)
                   /\ timer_id t <> 0%N
                   /\ longEnough (timer_text t) = true).

(** A series of inputs in the editor: before each one some time passes.
    Each goes through [onContentChange], so an input that repeats the
    content held notifies nobody and leaves the trigger as it is. *)
Fixpoint edits {platform : Platform} (burst : list (N * jsstring)) (w : World)
  : World :=
  match burst with
  | [] => w
  | (gap, html) :: rest => edits rest (onContentChange html (elapse gap w))
  end.










(** [w'] awaits and has seen what [w] has, and its analysis is the one of
    [w] or none. *)
Definition sameAnalysis (w w' : World) : Prop :=
  inflight w' = inflight w
  /\ settled w' = settled w
  /\ (analysis (app w') = analysis (app w) \/ analysis (app w') = JNull).

(** ** The tone of a stored analysis *)

(** The string at [analysis.tone.name], when the stored value has an object
    at [tone] with a string at [name]. *)
Definition toneNameOf (a : json) : option jsstring :=
  match a with
  | JObject members =>
      match member (str "tone") members with
      | Some (JObject toneMembers) =>
          match member (str "name") toneMembers with
          | Some (JString s) => Some s
          | _ => None
          end
      | _ => None
      end
  | _ => None
  end.

(** What the lookup of a lower-cased tone name gives. *)
Definition classOfKey (key : jsstring) : ClassValue :=
  match key with
  | [] => ClassString defaultToneClass
  | _ :: _ =>
      match toneColorMap_get key with
      | Some (ClassString []) | None => ClassString defaultToneClass
      | Some v => v
      end
  end.

(** [suggestion] or [newText] as [applySuggestion] and [transformContent]
    put it into the editor. *)
Definition wrapped (text : jsstring) : jsstring :=
  str "<div>" ++ replaceNewlines text ++ str "</div>".

(** The moves of the mouse as events. *)
Definition mouseMoves (moves : list (float * float)) : list Drag.MouseEvent :=
  List.map (fun m => Drag.Mousemove (fst m) (snd m)) moves.

(** Every pending trigger is for the text of the content that the editor
    holds, and is due within 1000 ms. *)
Definition triggerCurrent {platform : Platform} (w : World) : Prop :=
  forall t, In t (timers w) ->
    timer_text t = stripHtml (editorContent (app w))
    /\ (timer_due t <= now w + 1000)%N.

(** ** Data of the examples *)

Section ExampleData.
#[local] Existing Instance simplePlatform.

Definition resultWithTone (toneName : jsstring) : AnalysisResult :=
  {| tone := {| name := toneName; score := str "80" |};
     suggestions := [str "one"; str "two"; str "three"];
     grammarMistakes := [] |}.

(** A response without the field [tone]. *)
Definition responseWithoutTone : jsstring :=
  qstr "{'suggestions': ['a', 'b', 'c'], 'grammarMistakes': []}".

Definition parsedWithoutTone : json :=
  JObject [ (str "suggestions",
             JArray [JString (str "a"); JString (str "b"); JString (str "c")]);
            (str "grammarMistakes", JArray []) ].

(** An answer of the model, and the state after the first call has
    settled with it. *)
Definition angryResponse : jsstring :=
  qstr "{'tone': {'name': 'Angry', 'score': 80}, 'suggestions': ['a', 'b', 'c'], 'grammarMistakes': []}".

Definition analysed : World :=
  step constructed (Settle 1 (Replied (Some angryResponse))).



End ExampleData.

(* ================================================================== *)
(** * [JSON.parse] on examples *)

(** A few texts and what [JSON.parse] makes of them. *)
Example parse_object :
  parse (qstr "{ 'tone': {'name': 'Angry', 'score': 80}, 'suggestions': [] }")
  = Some (JObject [ (str "tone", JObject [ (str "name", JString (str "Angry"));
                                            (str "score", JNumber (str "80")) ]);
                    (str "suggestions", JArray []) ]).
Proof. vm_compute. reflexivity. Qed.

Example parse_scalars :
  parse (str " -12.5e+3 ") = Some (JNumber (str "-12.5e+3"))
  /\ parse (str "null") = Some JNull
  /\ parse (qstr "'a\u0041\n'") = Some (JString [97; 65; 10]%N)
  /\ parse (str "[true, [false], {}]")
     = Some (JArray [JBool true; JArray [JBool false]; JObject []]).
Proof. vm_compute. repeat split. Qed.

Example parse_rejects :
  parse [] = None /\ parse (str "{") = None /\ parse (str "[1,]") = None
  /\ parse (str "01") = None /\ parse (str "{'a':1}") = None
  /\ parse (str "nul") = None /\ parse (str "1 2") = None
  /\ parse (qstr "{'a' 1}") = None /\ parse (str "-") = None.
Proof. vm_compute. repeat split. Qed.

(* ================================================================== *)
(** * Facts about strings *)

Section StringFacts.

Lemma eqb_spec (a b : jsstring) : JS.eqb a b = true <-> a = b.
Proof.
  revert b; induction a as [|x a IH]; intros [|y b]; simpl;
    try (split; [discriminate | congruence]); try tauto.
  rewrite andb_true_iff, N.eqb_eq, IH. split.
  - intros [-> ->]; reflexivity.
  - intros H; injection H; auto.
Qed.

Lemma eqb_refl (a : jsstring) : JS.eqb a a = true.
Proof. apply eqb_spec; reflexivity. Qed.

Lemma eqb_neq (a b : jsstring) : JS.eqb a b = false <-> a <> b.
Proof.
  destruct (JS.eqb a b) eqn:E.
  - apply eqb_spec in E. split; [discriminate | contradiction].
  - split; [|reflexivity]. intros _ H. apply eqb_spec in H. congruence.
Qed.



Lemma startsWith_spec (p s : jsstring) :
  startsWith p s = true <-> exists rest, s = p ++ rest.
Proof.
  revert s; induction p as [|x p IH]; intros s; simpl.
  - split; [exists s; reflexivity | reflexivity].
  - destruct s as [|y s].
    + split; [discriminate | intros [r Hr]; discriminate].
    + rewrite andb_true_iff, N.eqb_eq, IH. split.
      * intros [-> [r ->]]. exists r; reflexivity.
      * intros [r Hr]. injection Hr as -> ->. split; [reflexivity | exists r; reflexivity].
Qed.

Lemma occursAt_0 (p s : jsstring) : occursAt p s 0 <-> startsWith p s = true.
Proof.
  rewrite startsWith_spec. split.
  - intros ([|] & after & -> & H); [exists after; reflexivity | discriminate].
  - intros [r ->]. exists [], r; split; reflexivity.
Qed.

Lemma occursAt_S (p : jsstring) (c : N) (s : jsstring) (n : nat) :
  occursAt p (c :: s) (S n) <-> occursAt p s n.
Proof.
  split.
  - intros ([|b before] & after & H & L); [discriminate|].
    injection H as -> ->. injection L as L. exists before, after; auto.
  - intros (before & after & -> & L). exists (c :: before), after.
    split; [reflexivity | simpl; congruence].
Qed.

(** [indexOf] finds the first occurrence. *)
Lemma indexOf_Some (s p : jsstring) (n : nat) :
  indexOf s p = Some n ->
  occursAt p s n /\ forall m, m < n -> ~ occursAt p s m.
Proof.
  revert n; induction s as [|c s IH]; intros n; simpl.
  - destruct (startsWith p []) eqn:E; [|discriminate].
    intros [= <-]. split; [apply occursAt_0; assumption | intros m Hm; lia].
  - destruct (startsWith p (c :: s)) eqn:E.
    + intros [= <-]. split; [apply occursAt_0; assumption | intros m Hm; lia].
    + destruct (indexOf s p) as [k|]; [|discriminate].
      simpl. intros [= <-]. destruct (IH k eq_refl) as [Hk Hfirst].
      split; [apply occursAt_S; assumption|].
      intros [|m] Hm.
      * rewrite occursAt_0. congruence.
      * rewrite occursAt_S. apply Hfirst. lia.
Qed.

Lemma indexOf_None (s p : jsstring) :
  indexOf s p = None -> forall n, ~ occursAt p s n.
Proof.
  induction s as [|c s IH]; simpl.
  - destruct (startsWith p []) eqn:E; [discriminate|].
    intros _ n ([|b before] & after & H & L).
    + simpl in H. destruct p; [discriminate E | discriminate H].
    + discriminate H.
  - destruct (startsWith p (c :: s)) eqn:E; [discriminate|].
    destruct (indexOf s p) as [k|] eqn:Ek; [discriminate|].
    intros _ [|n].
    + rewrite occursAt_0. congruence.
    + rewrite occursAt_S. apply IH. reflexivity.
Qed.

(** A replacement text without a dollar sign is inserted as it is. *)
Lemma GetSubstitution_plain (matched before after template : jsstring) :
  ~ In 36%N template ->
  GetSubstitution matched before after template = template.
Proof.
  induction template as [|c t IH]; simpl; [reflexivity|].
  intros H. destruct (N.eqb c 36) eqn:E.
  - apply N.eqb_eq in E. exfalso. apply H. left. congruence.
  - f_equal. apply IH. intros Hin. apply H. right. assumption.
Qed.

Lemma occursAt_split (p before after : jsstring) :
  firstn (length before) (before ++ p ++ after) = before
  /\ skipn (length before + length p) (before ++ p ++ after) = after.
Proof.
  split.
  - rewrite firstn_app, Nat.sub_diag, firstn_all. simpl. apply app_nil_r.
  - rewrite app_assoc, <- length_app, skipn_app, Nat.sub_diag, skipn_all.
    reflexivity.
Qed.

End StringFacts.

(* ================================================================== *)
(** * What the methods leave alone *)

Section Frames.
Context {platform : Platform}.

Lemma debounceEffect_editorContent (w : World) :
  editorContent (app (debounceEffect w)) = editorContent (app w).
Proof.
  unfold debounceEffect, cancelDebounce.
  destruct (debounceTimeout (app w)) as [id|]; [destruct (N.eqb id 0)|];
    destruct (10 <? length (trim (stripHtml (editorContent (app w)))));
    reflexivity.
Qed.

Lemma debounceEffect_network (w : World) :
  network (debounceEffect w) = network w.
Proof.
  unfold debounceEffect, cancelDebounce.
  destruct (debounceTimeout (app w)) as [id|]; [destruct (N.eqb id 0)|];
    destruct (10 <? length (trim (stripHtml (editorContent (app w)))));
    reflexivity.
Qed.

Lemma debounceEffect_inflight (w : World) :
  inflight (debounceEffect w) = inflight w /\ settled (debounceEffect w) = settled w.
Proof.
  unfold debounceEffect, cancelDebounce.
  destruct (debounceTimeout (app w)) as [id|]; [destruct (N.eqb id 0)|];
    destruct (10 <? length (trim (stripHtml (editorContent (app w)))));
    split; reflexivity.
Qed.

Lemma debounceEffect_flags (w : World) :
  isLoading (app (debounceEffect w)) = isLoading (app w)
  /\ error (app (debounceEffect w)) = error (app w)
  /\ now (debounceEffect w) = now w
  /\ dom (debounceEffect w) = dom w.
Proof.
  unfold debounceEffect, cancelDebounce.
  destruct (debounceTimeout (app w)) as [id|]; [destruct (N.eqb id 0)|];
    destruct (10 <? length (trim (stripHtml (editorContent (app w)))));
    repeat split; reflexivity.
Qed.

(** After [editorContent.set(v)] the signal holds [v]. *)
Lemma editorContent_set_value (v : jsstring) (w : World) :
  editorContent (app (editorContent_set v w)) = v.
Proof.
  unfold editorContent_set.
  destruct (JS.eqb v (editorContent (app w))) eqn:E.
  - apply eqb_spec in E. congruence.
  - unfold contentChange. rewrite debounceEffect_editorContent. reflexivity.
Qed.

Lemma editorContent_set_flags (v : jsstring) (w : World) :
  isLoading (app (editorContent_set v w)) = isLoading (app w)
  /\ error (app (editorContent_set v w)) = error (app w)
  /\ network (editorContent_set v w) = network w
  /\ dom (editorContent_set v w) = dom w.
Proof.
  unfold editorContent_set.
  destruct (JS.eqb v (editorContent (app w))); [repeat split; reflexivity|].
  unfold contentChange.
  destruct (debounceEffect_flags (set_editorContent v w)) as (-> & -> & _ & ->).
  rewrite debounceEffect_network. repeat split; reflexivity.
Qed.

End Frames.

(* ================================================================== *)
(** * [runAnalysis] *)

Section RunAnalysis.
Context {platform : Platform}.

(** C10.  [runAnalysis] called with the empty string, the only string for
    which [!text] holds, returns at its first line: no call goes out and
    neither [isLoading], [error] nor the stored analysis changes; the whole
    state is the one before the call, so a stale analysis is not cleared. *)
Theorem runAnalysis_empty_text (text : jsstring) (w : World) :
  length text = 0 ->
  runAnalysis text w = w
  /\ network (runAnalysis text w) = network w
  /\ inflight (runAnalysis text w) = inflight w
  /\ isLoading (app (runAnalysis text w)) = isLoading (app w)
  /\ error (app (runAnalysis text w)) = error (app w)
  /\ analysis (app (runAnalysis text w)) = analysis (app w).
Proof.
  intros Hempty. destruct text as [|c text]; [|discriminate Hempty].
  simpl. repeat split.
Qed.

(** C3.  Called with a text that is not empty, [runAnalysis] sets
    [isLoading] and sends one call of the model.  When that call settles,
    [isLoading] is reset whatever the outcome; if [analyzeText] returned, its
    result is the stored analysis; if it threw, the generic message is the
    error and the analysis is [null]. *)
Theorem runAnalysis_loading_and_outcome
    (text : jsstring) (w w' : World) (id : N) (r : Response) :
  text <> [] ->
  lookupPending id (inflight w') = Some (PendingAnalysis text) ->
  (isLoading (app (runAnalysis text w)) = true
   /\ network (runAnalysis text w) = network w ++ [(now w, analyzeText_request text)]
   /\ In (nextRequestId w, PendingAnalysis text) (inflight (runAnalysis text w)))
  /\ isLoading (app (settle id r w')) = false
  /\ match analyzeText_result r with
     | Returned result =>
         analysis (app (settle id r w')) = result
         /\ error (app (settle id r w')) = error (app w')
     | Thrown _ =>
         analysis (app (settle id r w')) = JNull
         /\ error (app (settle id r w'))
            = Some (str "Failed to analyze text. The API key may be invalid or the service is unavailable.")
     end.
Proof.
  intros Htext Hid. split.
  - destruct text as [|c text]; [contradiction|]. simpl.
    repeat split. apply in_or_app. right. left. reflexivity.
  - unfold settle. rewrite Hid.
    destruct (analyzeText_result r); simpl; repeat split.
Qed.

End RunAnalysis.

Section RunAnalysisExamples.
#[local] Existing Instance simplePlatform.

Lemma runAnalysis_empty_text_witness :
  length (@nil N) = 0
  /\ runAnalysis [] analysed = analysed
  /\ analysis (app (runAnalysis [] analysed)) <> JNull.
Proof.
  assert (H : length (@nil N) = 0) by reflexivity.
  destruct (runAnalysis_empty_text [] analysed H) as (Hsame & _ & _ & _ & _ & Ha).
  split; [exact H|]. split; [exact Hsame|].
  rewrite Ha. vm_compute. discriminate.
Defined.

Lemma runAnalysis_loading_and_outcome_witness :
  str "hello there" <> []
  /\ lookupPending 1 (inflight (runAnalysis (str "hello there") emptyWorld))
     = Some (PendingAnalysis (str "hello there"))
  /\ isLoading (app (runAnalysis (str "hello there") emptyWorld)) = true
  /\ isLoading (app (settle 1 Rejected
                       (runAnalysis (str "hello there") emptyWorld))) = false
  /\ analysis (app (settle 1 Rejected
                      (runAnalysis (str "hello there") emptyWorld))) = JNull.
Proof.
  assert (H1 : str "hello there" <> []) by discriminate.
  assert (H2 : lookupPending 1 (inflight (runAnalysis (str "hello there") emptyWorld))
               = Some (PendingAnalysis (str "hello there"))) by reflexivity.
  pose proof (runAnalysis_loading_and_outcome (str "hello there") emptyWorld
                (runAnalysis (str "hello there") emptyWorld)
                1%N Rejected H1 H2) as [[Hload _] [Hdone Hout]].
  simpl in Hout. destruct Hout as [Hnull _].
  repeat split; assumption.
Defined.

End RunAnalysisExamples.

(* ================================================================== *)
(** * [transformContent] *)

Section TransformContent.
Context {platform : Platform}.

Lemma transformContent_editorContent
    (action : jsstring) (selection : option Selection) (w : World) :
  editorContent (app (transformContent action selection w)) = editorContent (app w).
Proof.
  unfold transformContent.
  destruct selection as [s|]; [destruct (hasSelection (Some s))|];
    match goal with |- context [match ?t with [] => _ | _ :: _ => _ end] =>
      destruct t end; reflexivity.
Qed.

(** C4.  [transformContent] does not touch the content before its call of
    the model, and when that call fails the content is still the one the
    editor had: only the error, which is the message that quotes the action,
    and [isLoading] are written.  When the call returns a text and nothing
    was selected, the content is that text, wrapped. *)
Theorem transformContent_failure_keeps_content
    (action : jsstring) (selection : option Selection) (w w' : World)
    (id : N) (sel : bool) :
  lookupPending id (inflight w') = Some (PendingTransform sel action) ->
  editorContent (app (transformContent action selection w)) = editorContent (app w)
  /\ (editorContent (app (settle id Rejected w')) = editorContent (app w')
      /\ error (app (settle id Rejected w'))
         = Some (str "Failed to '" ++ action ++ str "' text. Please try again.")
      /\ isLoading (app (settle id Rejected w')) = false
      /\ analysis (app (settle id Rejected w')) = analysis (app w')
      /\ timers (settle id Rejected w') = timers w'
      /\ network (settle id Rejected w') = network w'
      /\ dom (settle id Rejected w') = dom w')
  /\ (forall newText, sel = false ->
        editorContent (app (settle id (Replied (Some newText)) w'))
        = str "<div>" ++ replaceNewlines newText ++ str "</div>"
        /\ error (app (settle id (Replied (Some newText)) w')) = error (app w')).
Proof.
  intros Hid. split; [apply transformContent_editorContent|]. split.
  - unfold settle. rewrite Hid. simpl. repeat split.
  - intros newText ->. unfold settle. rewrite Hid.
    unfold transformContent_resume, transformText_result, set_isLoading, update.
    cbn [app error editorContent]. split.
    + apply editorContent_set_value.
    + destruct (editorContent_set_flags
                  (str "<div>" ++ replaceNewlines newText ++ str "</div>")
                  (removePending id w')) as (_ & -> & _). reflexivity.
Qed.

End TransformContent.

Section TransformContentExamples.
#[local] Existing Instance simplePlatform.

Lemma transformContent_failure_keeps_content_witness :
  lookupPending 1 (inflight (transformContent (str "shorten") None emptyWorld))
  = Some (PendingTransform false (str "shorten"))
  /\ editorContent (app (settle 1 Rejected
                           (transformContent (str "shorten") None emptyWorld)))
     = initialContent
  /\ error (app (settle 1 Rejected
                   (transformContent (str "shorten") None emptyWorld)))
     = Some (str "Failed to 'shorten' text. Please try again.").
Proof.
  assert (H : lookupPending 1 (inflight (transformContent (str "shorten") None emptyWorld))
              = Some (PendingTransform false (str "shorten"))) by reflexivity.
  pose proof (transformContent_failure_keeps_content (str "shorten") None emptyWorld
                (transformContent (str "shorten") None emptyWorld)
                1%N false H) as (Hsync & (Hcontent & Herror & _) & _).
  split; [exact H|]. split.
  - rewrite Hcontent. exact Hsync.
  - exact Herror.
Defined.

End TransformContentExamples.

(* ================================================================== *)
(** * [doResize] *)

(** C9.  A mouse move whose computed width is strictly inside [(25, 75)]
    sets the stored width to that value; any other move leaves the stored
    width, and the whole state, as it was: the width is not clipped to the
    nearer bound. *)
Theorem doResize_inside_or_unchanged (clientX innerWidth : float) (w : World) :
  (strictlyInside (widthOfCursor clientX innerWidth) ->
   editorWidthPercent (app (doResize clientX innerWidth w))
   = widthOfCursor clientX innerWidth)
  /\ (~ strictlyInside (widthOfCursor clientX innerWidth) ->
      doResize clientX innerWidth w = w).
Proof.
  unfold strictlyInside, widthOfCursor, doResize.
  destruct (PrimFloat.ltb 25 (clientX / innerWidth * 100)) eqn:Elow;
    destruct (PrimFloat.ltb (clientX / innerWidth * 100) 75) eqn:Ehigh; simpl;
    split; intros H; try reflexivity;
    solve [ destruct H; discriminate | exfalso; apply H; split; reflexivity ].
Qed.

Lemma doResize_inside_or_unchanged_witness :
  (strictlyInside (widthOfCursor 500 1000)
   /\ editorWidthPercent (app (doResize 500 1000 emptyWorld)) = 50%float)
  /\ (~ strictlyInside (widthOfCursor 900 1000)
      /\ editorWidthPercent (app (doResize 900 1000 emptyWorld)) = 66%float)
  /\ (~ strictlyInside (widthOfCursor 250 1000)
      /\ editorWidthPercent (app (doResize 250 1000 emptyWorld)) = 66%float).
Proof.
  assert (Hin : strictlyInside (widthOfCursor 500 1000)) by (split; reflexivity).
  assert (Hout : ~ strictlyInside (widthOfCursor 900 1000))
    by (intros [_ H]; vm_compute in H; discriminate).
  assert (Hedge : ~ strictlyInside (widthOfCursor 250 1000))
    by (intros [H _]; vm_compute in H; discriminate).
  split; [split; [exact Hin|]|split; split; [exact Hout| |exact Hedge|]].
  - rewrite (proj1 (doResize_inside_or_unchanged 500 1000 emptyWorld) Hin).
    reflexivity.
  - rewrite (proj2 (doResize_inside_or_unchanged 900 1000 emptyWorld) Hout).
    reflexivity.
  - rewrite (proj2 (doResize_inside_or_unchanged 250 1000 emptyWorld) Hedge).
    reflexivity.
Defined.

(* ================================================================== *)
(** * [transformText] *)

Section TransformText.
Context {platform : Platform}.

(** C6, as the code has it.  [transformText] looks at the lower-cased
    action: when that is [shorten] or [formalize] the prompt is the fixed
    instruction of that action; for every other action the prompt is the
    generic template with the action in front as it was given. *)
Theorem transformText_routing (text action : jsstring) :
  (toLowerCase action = str "shorten" ->
   contents (transformText_request text action) = shortenPrompt text)
  /\ (toLowerCase action = str "formalize" ->
      contents (transformText_request text action) = formalizePrompt text)
  /\ (toLowerCase action <> str "shorten" ->
      toLowerCase action <> str "formalize" ->
      contents (transformText_request text action) = genericPrompt action text).
Proof.
  unfold transformText_request, transformPrompt; simpl.
  repeat split.
  - intros ->. reflexivity.
  - intros ->. reflexivity.
  - intros H1 H2. apply eqb_neq in H1, H2. rewrite H1, H2.
    reflexivity.
Qed.

End TransformText.

Section TransformTextExamples.
#[local] Existing Instance simplePlatform.

Lemma transformText_routing_witness :
  contents (transformText_request (str "hi") (str "shorten"))
  = qstr "Make the following text more concise: 'hi'"
  /\ contents (transformText_request (str "hi") (str "formalize"))
     = qstr "Rewrite the following text in a more formal and professional tone: 'hi'"
  /\ contents (transformText_request (str "hi") (str "Make Funny"))
     = qstr "Make Funny the following text: 'hi'".
Proof.
  split; [|split].
  - apply (proj1 (transformText_routing (str "hi") (str "shorten"))).
    reflexivity.
  - apply (proj1 (proj2 (transformText_routing (str "hi") (str "formalize")))).
    reflexivity.
  - apply (proj2 (proj2 (transformText_routing (str "hi") (str "Make Funny"))));
      vm_compute; discriminate.
Defined.

(** C6, as the claim has it, fails: [Shorten] is neither [shorten] nor
    [formalize], and it is not sent with the generic template. *)
Lemma transformText_Shorten_not_generic :
  str "Shorten" <> str "shorten"
  /\ str "Shorten" <> str "formalize"
  /\ contents (transformText_request (str "hi") (str "Shorten"))
     = qstr "Make the following text more concise: 'hi'"
  /\ contents (transformText_request (str "hi") (str "Shorten"))
     <> genericPrompt (str "Shorten") (str "hi").
Proof.
  repeat split; try (vm_compute; discriminate). 
Qed.

End TransformTextExamples.

(* ================================================================== *)
(** * [applyGrammarCorrection] *)

Section ApplyGrammarCorrection.
Context {platform : Platform}.

(** When the replacement text has no dollar sign, [replace] puts it in the
    place of the first occurrence of the pattern. *)
Lemma replace_first_occurrence (s pattern replacement before after : jsstring) :
  s = before ++ pattern ++ after ->
  (forall m, m < length before -> ~ occursAt pattern s m) ->
  ~ In 36%N replacement ->
  JS.replace s pattern replacement = before ++ replacement ++ after.
Proof.
  intros Hs Hfirst Hplain. unfold JS.replace.
  destruct (indexOf s pattern) as [n|] eqn:E.
  - destruct (indexOf_Some _ _ _ E) as [Hn Hmin].
    assert (n = length before) as ->.
    { destruct (Nat.lt_trichotomy n (length before)) as [Hlt|[Heq|Hgt]].
      - exfalso. exact (Hfirst n Hlt Hn).
      - exact Heq.
      - exfalso. apply (Hmin (length before) Hgt).
        exists before, after. split; [exact Hs | reflexivity]. }
    rewrite GetSubstitution_plain by assumption. subst s.
    destruct (occursAt_split pattern before after) as [-> ->]. reflexivity.
  - exfalso. apply (indexOf_None _ _ E (length before)).
    exists before, after. split; [exact Hs | reflexivity].
Qed.

(** Without an occurrence of the pattern, [replace] returns its string. *)
Lemma replace_absent (s pattern replacement : jsstring) :
  (forall n, ~ occursAt pattern s n) ->
  JS.replace s pattern replacement = s.
Proof.
  intros Habsent. unfold JS.replace.
  destruct (indexOf s pattern) as [n|] eqn:E; [|reflexivity].
  destruct (indexOf_Some _ _ _ E) as [Hn _]. exfalso. exact (Habsent n Hn).
Qed.

Lemma applyGrammarCorrection_content (mistake correction : jsstring) (w : World) :
  editorContent (app (applyGrammarCorrection mistake correction w))
  = JS.replace (editorContent (app w)) mistake correction.
Proof. unfold applyGrammarCorrection. apply editorContent_set_value. Qed.

(** A correction without a dollar sign replaces the first occurrence of the
    mistake, and only that one. *)
Lemma applyGrammarCorrection_plain
    (mistake correction before after : jsstring) (w : World) :
  editorContent (app w) = before ++ mistake ++ after ->
  (forall m, m < length before -> ~ occursAt mistake (editorContent (app w)) m) ->
  ~ In 36%N correction ->
  editorContent (app (applyGrammarCorrection mistake correction w))
  = before ++ correction ++ after.
Proof.
  intros. rewrite applyGrammarCorrection_content.
  apply replace_first_occurrence; assumption.
Qed.

(** A mistake that is not in the document: nothing at all happens. *)
Lemma applyGrammarCorrection_absent (mistake correction : jsstring) (w : World) :
  (forall n, ~ occursAt mistake (editorContent (app w)) n) ->
  applyGrammarCorrection mistake correction w = w.
Proof.
  intros H. unfold applyGrammarCorrection, editorContent_set.
  rewrite replace_absent by assumption. rewrite eqb_refl. reflexivity.
Qed.

End ApplyGrammarCorrection.

Section ApplyGrammarCorrectionExamples.
#[local] Existing Instance simplePlatform.

(** The example of the specification. *)
Example applyGrammarCorrection_ur :
  editorContent (app (applyGrammarCorrection (str "ur") (str "your")
                        (set_editorContent (str "i think ur idea") emptyWorld)))
  = str "i think your idea".
Proof. vm_compute. reflexivity. Qed.

(** C5.  The correction is not inserted as it is: [replace] reads [$$],
    [$&], [$`] and [$'] in it as patterns.  Correcting [i need more $$] to
    [I need more $$] leaves a single dollar sign in the document. *)
Theorem applyGrammarCorrection_dollar_patterns :
  editorContent (app (applyGrammarCorrection
                        (str "i need more $$") (str "I need more $$")
                        (set_editorContent (str "<div>i need more $$ now</div>")
                           emptyWorld)))
  = str "<div>I need more $ now</div>"
  /\ editorContent (app (applyGrammarCorrection (str "teh") (str "$&$&")
                           (set_editorContent (str "<div>teh cat</div>")
                              emptyWorld)))
     = str "<div>tehteh cat</div>".
Proof. split; vm_compute; reflexivity. Qed.

End ApplyGrammarCorrectionExamples.

(* ================================================================== *)
(** * [toneColorClass] *)

Section ToneColor.
Context {platform : Platform}.

Lemma toneColorMap_colors (key color : jsstring) :
  ownProperty key toneColorMap = Some color -> color <> [].
Proof.
  unfold toneColorMap. simpl.
  repeat (match goal with
          | |- context [if JS.eqb key ?k then _ else _] =>
              destruct (JS.eqb key k); [intros [= <-]; discriminate|]
          end).
  discriminate.
Qed.

Lemma inherited_spec (key : jsstring) :
  existsb (JS.eqb key) objectPrototypeNames = true <-> In key objectPrototypeNames.
Proof.
  rewrite existsb_exists. split.
  - intros (k & Hin & E). apply eqb_spec in E. subst. assumption.
  - intros Hin. exists key. split; [assumption | apply eqb_refl].
Qed.

(** With a result of the shape of the interface, [toneColorClass] is the
    lookup of the lower-cased tone name. *)
Lemma toneColorClass_of_result (a : AnalysisResult) (w : World) :
  analysis (app w) = jsonOfResult a ->
  toneColorClass w
  = Returned
      match toLowerCase (name (tone a)) with
      | [] => ClassString defaultToneClass
      | key =>
          match toneColorMap_get key with
          | Some (ClassString []) | None => ClassString defaultToneClass
          | Some v => v
          end
      end.
Proof.
  intros H. unfold toneColorClass. rewrite H. unfold jsonOfResult.
  cbn [getProperty]. 
  replace (member (str "tone") _) with
    (Some (JObject [ (str "name", JString (name (tone a)));
                     (str "score", JNumber (score (tone a))) ]))
    by reflexivity.
  cbn [getProperty].
  replace (member (str "name") _) with (Some (JString (name (tone a))))
    by reflexivity.
  cbn [call_toLowerCase].
  destruct (toLowerCase (name (tone a))) as [|c key]; [reflexivity|].
  destruct (toneColorMap_get (c :: key)) as [[[|]|]|]; reflexivity.
Qed.

(** A tone name whose lower-casing is a key of the table gets the colour
    of that key. *)
Lemma toneColorClass_known (a : AnalysisResult) (w : World) (color : jsstring) :
  analysis (app w) = jsonOfResult a ->
  ownProperty (toLowerCase (name (tone a))) toneColorMap = Some color ->
  toneColorClass w = Returned (ClassString color).
Proof.
  intros H Hkey. rewrite (toneColorClass_of_result a w H).
  destruct (toLowerCase (name (tone a))) as [|c key] eqn:E.
  - discriminate Hkey.
  - unfold toneColorMap_get. rewrite Hkey.
    pose proof (toneColorMap_colors _ _ Hkey).
    destruct color; [contradiction | reflexivity].
Qed.

(** A tone name whose lower-casing is neither a key of the table nor a
    name that an object inherits gets the default colour. *)
Lemma toneColorClass_unknown (a : AnalysisResult) (w : World) :
  analysis (app w) = jsonOfResult a ->
  ownProperty (toLowerCase (name (tone a))) toneColorMap = None ->
  ~ In (toLowerCase (name (tone a))) objectPrototypeNames ->
  toneColorClass w = Returned (ClassString defaultToneClass).
Proof.
  intros H Hkey Hown. rewrite (toneColorClass_of_result a w H).
  destruct (toLowerCase (name (tone a))) as [|c key] eqn:E; [reflexivity|].
  unfold toneColorMap_get. rewrite Hkey.
  destruct (existsb (JS.eqb (c :: key)) objectPrototypeNames) eqn:Ex.
  - apply inherited_spec in Ex. contradiction.
  - reflexivity.
Qed.

(** Without an analysis the colour is the default one. *)
Lemma toneColorClass_no_analysis (w : World) :
  analysis (app w) = JNull ->
  toneColorClass w = Returned (ClassString defaultToneClass).
Proof. intros H. unfold toneColorClass. rewrite H. reflexivity. Qed.

End ToneColor.

Section ToneColorExamples.
#[local] Existing Instance simplePlatform.

Example toneColorClass_angry :
  toneColorClass (set_analysis (jsonOfResult (resultWithTone (str "Angry")))
                    emptyWorld)
  = Returned (ClassString (str "bg-red-600"))
  /\ toneColorClass (set_analysis (jsonOfResult (resultWithTone (str "Wistful")))
                       emptyWorld)
     = Returned (ClassString (str "bg-gray-400 dark:bg-gray-600")).
Proof. split; vm_compute; reflexivity. Qed.

(** C8.  A tone name that is not in the table does not always get the
    default colour: [toneColorMap[toneName]] also finds what the object
    literal inherits, so for the tone [constructor] the computed signal
    returns the [Object] constructor, which is not a class string at all. *)
Theorem toneColorClass_constructor :
  ownProperty (toLowerCase (str "constructor")) toneColorMap = None
  /\ toneColorClass (set_analysis (jsonOfResult (resultWithTone (str "constructor")))
                       emptyWorld)
     = Returned (Inherited (str "constructor"))
  /\ toneColorClass (set_analysis (jsonOfResult (resultWithTone (str "Constructor")))
                       emptyWorld)
     <> Returned (ClassString defaultToneClass).
Proof. repeat split; vm_compute; try reflexivity; discriminate. Qed.

End ToneColorExamples.

(* ================================================================== *)
(** * [JSON.parse]: a text that went wrong stays wrong *)

Lemma step_failed (c : N) : JSON.step failed c = failed.
Proof. reflexivity. Qed.

Lemma run_failed (text : jsstring) : fold_left JSON.step text failed = failed.
Proof. induction text as [|c text IH]; [reflexivity | exact IH]. Qed.

(** A text that starts with a code unit which is neither JSON white space
    nor the start of a value is rejected, whatever follows. *)
Lemma parse_bad_start (c : N) (text : jsstring) :
  isJsonWhiteSpace c = false -> startValue c [] = failed ->
  JSON.parse (c :: text) = None.
Proof.
  intros Hws Hstart. unfold JSON.parse. simpl. rewrite Hws, Hstart.
  rewrite run_failed. reflexivity.
Qed.

(** So no text with a vertical tab, a form feed, a no-break space or a
    byte order mark in front is JSON, while [trim] strips all of them. *)
Lemma parse_rejects_other_white_space (c : N) (text : jsstring) :
  In c [11; 12; 160; 65279]%N ->
  JSON.parse (c :: text) = None /\ isWhiteSpace c = true.
Proof.
  intros [<- | [<- | [<- | [<- | []]]]]; split;
    solve [ apply parse_bad_start; reflexivity | reflexivity ].
Qed.

(* ================================================================== *)
(** * [JSON.parse] and [trim] *)

Lemma isWhiteSpace_cases (c : N) : isWhiteSpace c = true -> In c whiteSpaces.
Proof.
  unfold isWhiteSpace. rewrite existsb_exists.
  intros (x & Hin & E). apply N.eqb_eq in E. subst. exact Hin.
Qed.

Ltac split_cases :=
  repeat match goal with
         | |- context [if ?b then _ else _] => destruct b
         | |- context [match ?x with _ => _ end] => destruct x
         end.

Lemma complete_literalOk v stack : literalOk (complete v stack).
Proof. unfold complete. split_cases; exact I. Qed.

Lemma afterValue_literalOk c p : literalOk (afterValue c p).
Proof.
  unfold afterValue. destruct p as [m stack].
  destruct m; try exact I.
  - destruct (isJsonWhiteSpace c); [exact I|].
    destruct stack as [|[done|done [k|]] st]; try exact I;
    destruct (N.eqb c 44); try exact I.
    + destruct (N.eqb c 93); [apply complete_literalOk | exact I].
    + destruct (N.eqb c 125); [apply complete_literalOk | exact I].
  - destruct (isJsonWhiteSpace c); exact I.
Qed.

Lemma startValue_literalOk c stack : literalOk (startValue c stack).
Proof.
  unfold startValue.
  repeat match goal with
         | |- context [if ?b then _ else _] => destruct b; [try exact I; try reflexivity|]
         end.
  exact I.
Qed.

Lemma step_literalOk (p : pstate) (c : N) : literalOk p -> literalOk (JSON.step p c).
Proof.
  destruct p as [m stack]. intros H. destruct m; simpl.
  - destruct (isJsonWhiteSpace c); [exact I | apply startValue_literalOk].
  - destruct (isJsonWhiteSpace c); [exact I|].
    destruct (N.eqb c 93); [|apply startValue_literalOk].
    destruct stack as [|[|] ?]; try exact I. apply complete_literalOk.
  - destruct (isJsonWhiteSpace c); [exact I|].
    destruct (N.eqb c 125).
    + destruct stack as [|[|] ?]; try exact I. apply complete_literalOk.
    + destruct (N.eqb c 34); exact I.
  - destruct (isJsonWhiteSpace c); [exact I|]. destruct (N.eqb c 34); exact I.
  - destruct (isJsonWhiteSpace c); [exact I|]. destruct (N.eqb c 58); exact I.
  - apply (afterValue_literalOk c (MAfter, stack)).
  - unfold stringChar. destruct st.
    + destruct (N.eqb c 34).
      * destruct iskey; [|apply complete_literalOk].
        destruct stack as [|[|? [|]] ?]; exact I.
      * destruct (N.eqb c 92); [exact I|]. destruct (N.ltb c 32); exact I.
    + repeat match goal with
         | |- context [if ?b then _ else _] => destruct b; [exact I|]
         end. exact I.
    + destruct (hexValue c); [|exact I]. destruct (Nat.eqb digits 3); exact I.
  - destruct rest as [|x rest']; [exact I|].
    destruct (N.eqb c x); [|exact I].
    destruct rest' as [|y rest'']; [apply complete_literalOk|].
    unfold literalOk in *. simpl in *. apply andb_true_iff in H. tauto.
  - unfold numberChar.
    destruct st;
    repeat match goal with
         | |- context [if ?b then _ else _] => destruct b; [exact I|]
         end; try exact I; apply afterValue_literalOk.
  - apply (afterValue_literalOk c (MDone v, stack)).
  - exact I.
Qed.

Lemma run_literalOk (text : jsstring) (p : pstate) :
  literalOk p -> literalOk (fold_left JSON.step text p).
Proof.
  revert p. induction text as [|c text IH]; intros p H; [exact H|].
  simpl. apply IH. apply step_literalOk. exact H.
Qed.

(** White space after the text: if the parser accepts with it, it accepts
    without it, and the value is the same. *)
Lemma finish_step_whiteSpace (p : pstate) (c : N) (v : json) :
  literalOk p -> isWhiteSpace c = true ->
  finish (JSON.step p c) = Some v -> finish p = Some v.
Proof.
  intros Hok Hws. destruct p as [m stack].
  destruct m as [| | | | | | iskey st acc | rest lit | st acc | done | ].
  8: { (* a literal *)
    simpl. destruct rest as [|x rest']; [discriminate|].
    destruct (N.eqb c x) eqn:E; [|discriminate].
    apply N.eqb_eq in E. subst x. unfold literalOk in Hok. simpl in Hok.
    rewrite Hws in Hok. discriminate Hok. }
  7: destruct st as [| |digits value].
  10: destruct st; destruct stack as [|[done|done [k|]] stack'].
  all: apply isWhiteSpace_cases in Hws; unfold whiteSpaces in Hws;
    repeat (destruct Hws as [<- | Hws]); try contradiction;
    simpl; try discriminate; try (intros H; exact H).
  all: try (destruct stack as [|[done|done [k|]] stack']; simpl; try discriminate;
            intros H; exact H).
Qed.

Lemma parse_snoc_whiteSpace (text : jsstring) (c : N) (v : json) :
  isWhiteSpace c = true ->
  JSON.parse (text ++ [c]) = Some v -> JSON.parse text = Some v.
Proof.
  unfold JSON.parse. rewrite fold_left_app. simpl. intros Hws.
  apply finish_step_whiteSpace; [|exact Hws].
  apply run_literalOk. exact I.
Qed.

Lemma parse_cons_whiteSpace (c : N) (text : jsstring) (v : json) :
  isWhiteSpace c = true ->
  JSON.parse (c :: text) = Some v -> JSON.parse text = Some v.
Proof.
  intros Hws. apply isWhiteSpace_cases in Hws. unfold whiteSpaces in Hws.
  repeat (destruct Hws as [<- | Hws]); try contradiction;
    first [ intros H; exact H
          | rewrite parse_bad_start by reflexivity; discriminate ].
Qed.

Lemma parse_trimStart (text : jsstring) (v : json) :
  JSON.parse text = Some v -> JSON.parse (trimStart text) = Some v.
Proof.
  induction text as [|c text IH]; simpl; [auto|].
  destruct (isWhiteSpace c) eqn:E; [|auto].
  intros H. apply IH. exact (parse_cons_whiteSpace c text v E H).
Qed.

Lemma parse_trimEnd (text : jsstring) (v : json) :
  JSON.parse text = Some v -> JSON.parse (trimEnd text) = Some v.
Proof.
  unfold trimEnd. rewrite <- (rev_involutive text) at 1.
  induction (rev text) as [|c r IH]; simpl; [auto|].
  destruct (isWhiteSpace c) eqn:E; [|auto].
  intros H. apply IH. exact (parse_snoc_whiteSpace (rev r) c v E H).
Qed.

(** A text that is JSON is still JSON, with the same value, after [trim]. *)
Lemma parse_trim (text : jsstring) (v : json) :
  JSON.parse text = Some v -> JSON.parse (trim text) = Some v.
Proof.
  intros H. unfold trim. apply parse_trimEnd, parse_trimStart. exact H.
Qed.

(* ================================================================== *)
(** * [analyzeText] *)

Section AnalyzeText.
Context {platform : Platform}.

(** C7, as the code has it.  [analyzeText] trims the text of the response
    and parses what is left: it throws the [SyntaxError] of [JSON.parse]
    exactly when the trimmed text is not JSON, hence only when the text
    itself is not JSON.  Whatever value the trimmed
    text denotes is returned as it is, with or without the fields [tone],
    [suggestions] and [grammarMistakes]: nothing checks them, and
    [runAnalysis] stores the value, sets no error and resets [isLoading]. *)
Theorem analyzeText_parses_trimmed_text (text : jsstring) :
  (analyzeText_result (Replied (Some text)) = Thrown SyntaxError
   <-> JSON.parse (trim text) = None)
  /\ (analyzeText_result (Replied (Some text)) = Thrown SyntaxError ->
      JSON.parse text = None)
  /\ (forall v, JSON.parse (trim text) = Some v ->
        analyzeText_result (Replied (Some text)) = Returned v
        /\ forall w id sent,
             lookupPending id (inflight w) = Some (PendingAnalysis sent) ->
             analysis (app (settle id (Replied (Some text)) w)) = v
             /\ error (app (settle id (Replied (Some text)) w)) = error (app w)
             /\ isLoading (app (settle id (Replied (Some text)) w)) = false).
Proof.
  unfold analyzeText_result. split; [|split].
  - destruct (JSON.parse (trim text)); split; congruence.
  - destruct (JSON.parse text) as [v|] eqn:E; [|reflexivity].
    rewrite (parse_trim text v E). discriminate.
  - intros v Hv. split; [rewrite Hv; reflexivity|].
    intros w id sent Hid. unfold settle, analyzeText_result.
    rewrite Hid, Hv. repeat split.
Qed.

End AnalyzeText.

Section AnalyzeTextExamples.
#[local] Existing Instance simplePlatform.

Lemma analyzeText_parses_trimmed_text_witness :
  JSON.parse (trim responseWithoutTone) = Some parsedWithoutTone
  /\ analyzeText_result (Replied (Some responseWithoutTone))
     = Returned parsedWithoutTone
  /\ analysis (app (settle 1 (Replied (Some responseWithoutTone))
                      (runAnalysis (str "hello there") emptyWorld)))
     = parsedWithoutTone
  /\ error (app (settle 1 (Replied (Some responseWithoutTone))
                   (runAnalysis (str "hello there") emptyWorld)))
     = None.
Proof.
  assert (Hparse : JSON.parse (trim responseWithoutTone) = Some parsedWithoutTone)
    by (vm_compute; reflexivity).
  destruct (proj2 (proj2 (analyzeText_parses_trimmed_text responseWithoutTone))
              parsedWithoutTone Hparse) as [Hreturned Hstored].
  destruct (Hstored (runAnalysis (str "hello there") emptyWorld) 1%N
              (str "hello there") eq_refl) as (Hanalysis & Herror & _).
  repeat split; assumption.
Defined.

(** C7, as the claim has it, fails: a text with a vertical tab in front
    and a no-break space behind is not JSON, and [JSON.parse] rejects it, yet
    [analyzeText] returns a value for it, because [trim] has removed both. *)
Lemma analyzeText_accepts_malformed_text :
  JSON.parse (11%N :: str "{}" ++ [160%N]) = None
  /\ analyzeText_result (Replied (Some (11%N :: str "{}" ++ [160%N])))
     = Returned (JObject []).
Proof. split; vm_compute; reflexivity. Qed.

(** A result without [tone] is stored, and the tone colour computed from
    it throws. *)
Example toneColorClass_without_tone :
  toneColorClass (set_analysis parsedWithoutTone emptyWorld) = Thrown TypeError.
Proof. vm_compute. reflexivity. Qed.

End AnalyzeTextExamples.

(* ================================================================== *)
(** * The debounced analysis *)

Section Debounce.
Context {platform : Platform}.

Lemma sameSchedule_refl (w : World) : sameSchedule w w.
Proof. repeat split. Qed.

Lemma sameSchedule_trans (w1 w2 w3 : World) :
  sameSchedule w1 w2 -> sameSchedule w2 w3 -> sameSchedule w1 w3.
Proof.
  intros (A1 & A2 & A3) (B1 & B2 & B3). repeat split; congruence.
Qed.

Lemma singleTrigger_same (w w' : World) :
  sameSchedule w w' -> singleTrigger w -> singleTrigger w'.
Proof.
  intros (Ht & Hn & Hd) [Hnext Hone]. split; [congruence|].
  rewrite Ht, Hd. exact Hone.
Qed.

Lemma runAnalysis_schedule (text : jsstring) (w : World) :
  sameSchedule w (runAnalysis text w).
Proof. destruct text; repeat split. Qed.

Lemma runAnalysis_resume_schedule (r : outcome json) (w : World) :
  sameSchedule w (runAnalysis_resume r w).
Proof. destruct r; repeat split. Qed.

Lemma transformContent_schedule
    (action : jsstring) (selection : option Selection) (w : World) :
  sameSchedule w (transformContent action selection w).
Proof.
  unfold transformContent.
  destruct selection as [s|]; [destruct (hasSelection (Some s))|];
    match goal with |- context [match ?t with [] => _ | _ :: _ => _ end] =>
      destruct t end; repeat split.
Qed.

Lemma doResize_schedule (clientX innerWidth : float) (w : World) :
  sameSchedule w (doResize clientX innerWidth w).
Proof.
  unfold doResize.
  destruct (PrimFloat.ltb 25 (clientX / innerWidth * 100)
            && PrimFloat.ltb (clientX / innerWidth * 100) 75)%bool;
    repeat split.
Qed.

(** Cancelling touches the timers only. *)
Lemma cancelDebounce_frame (w : World) :
  app (cancelDebounce w) = app w
  /\ now (cancelDebounce w) = now w
  /\ nextTimerId (cancelDebounce w) = nextTimerId w
  /\ inflight (cancelDebounce w) = inflight w
  /\ network (cancelDebounce w) = network w
  /\ settled (cancelDebounce w) = settled w.
Proof.
  unfold cancelDebounce.
  destruct (debounceTimeout (app w)) as [id|]; [destruct (N.eqb id 0)|];
    repeat split.
Qed.

(** With a single trigger, cancelling leaves no timer. *)
Lemma cancelDebounce_timers (w : World) :
  singleTrigger w -> timers (cancelDebounce w) = [].
Proof.
  intros [_ [Hnone | (t & Ht & Hd & Hid & _)]]; unfold cancelDebounce.
  - destruct (debounceTimeout (app w)) as [id|]; [destruct (N.eqb id 0)|];
      simpl; rewrite Hnone; reflexivity.
  - rewrite Hd. apply N.eqb_neq in Hid. rewrite Hid. simpl.
    rewrite Ht. simpl. rewrite N.eqb_refl. reflexivity.
Qed.

(** What the effect leaves pending: the old trigger is gone; for a text
    that is long enough there is exactly one new trigger, due a second
    later; for any other text there is none. *)
Lemma debounceEffect_timers (w : World) :
  singleTrigger w ->
  timers (debounceEffect w)
  = if longEnough (stripHtml (editorContent (app w)))
    then [trigger (nextTimerId w) (now w) (stripHtml (editorContent (app w)))]
    else [].
Proof.
  intros Hw. unfold debounceEffect, longEnough.
  destruct (cancelDebounce_frame w) as (Happ & Hnow & Hnext & _).
  pose proof (cancelDebounce_timers w Hw) as Hnone.
  destruct (10 <? length (trim (stripHtml (editorContent (app w))))); simpl.
  - rewrite Hnone, Hnow, Hnext. reflexivity.
  - exact Hnone.
Qed.

Lemma debounceEffect_singleTrigger (w : World) :
  singleTrigger w -> singleTrigger (debounceEffect w).
Proof.
  intros Hw. pose proof (debounceEffect_timers w Hw) as Ht.
  destruct Hw as [Hnext _]. split.
  - unfold debounceEffect.
    destruct (cancelDebounce_frame w) as (_ & _ & Hn & _).
    destruct (10 <? length (trim (stripHtml (editorContent (app w))))); simpl;
      rewrite Hn; lia.
  - rewrite Ht. destruct (longEnough (stripHtml (editorContent (app w)))) eqn:E.
    + right. eexists. split; [reflexivity|]. simpl.
      unfold debounceEffect. fold (longEnough (stripHtml (editorContent (app w)))).
      rewrite E. simpl.
      destruct (cancelDebounce_frame w) as (_ & _ & Hn & _). rewrite Hn.
      repeat split; assumption.
    + left. reflexivity.
Qed.

Lemma contentChange_singleTrigger (html : jsstring) (w : World) :
  singleTrigger w -> singleTrigger (contentChange html w).
Proof.
  intros Hw. apply debounceEffect_singleTrigger.
  apply (singleTrigger_same w); [repeat split | exact Hw].
Qed.

Lemma editorContent_set_singleTrigger (v : jsstring) (w : World) :
  singleTrigger w -> singleTrigger (editorContent_set v w).
Proof.
  intros Hw. unfold editorContent_set.
  destruct (JS.eqb v (editorContent (app w)));
    [exact Hw | apply contentChange_singleTrigger; exact Hw].
Qed.

Lemma transformContent_resume_singleTrigger
    (sel : bool) (action : jsstring) (r : outcome (option jsstring)) (w : World) :
  singleTrigger w -> singleTrigger (transformContent_resume sel action r w).
Proof.
  intros Hw. unfold transformContent_resume.
  apply (singleTrigger_same
           (match r with
            | Returned newText =>
                if sel then execCommand (InsertText newText) w
                else match newText with
                     | Some t => editorContent_set
                                   (str "<div>" ++ replaceNewlines t ++ str "</div>") w
                     | None => set_error (Some (transformFailedMessage action)) w
                     end
            | Thrown _ => set_error (Some (transformFailedMessage action)) w
            end)); [repeat split|].
  destruct r as [[t|]|e]; [destruct sel| destruct sel |].
  - apply (singleTrigger_same w); [repeat split | exact Hw].
  - apply editorContent_set_singleTrigger. exact Hw.
  - apply (singleTrigger_same w); [repeat split | exact Hw].
  - apply (singleTrigger_same w); [repeat split | exact Hw].
  - apply (singleTrigger_same w); [repeat split | exact Hw].
Qed.

Lemma settle_singleTrigger (id : N) (r : Response) (w : World) :
  singleTrigger w -> singleTrigger (settle id r w).
Proof.
  intros Hw. unfold settle.
  destruct (lookupPending id (inflight w)) as [[text | sel action]|]; [| |exact Hw].
  - apply (singleTrigger_same w); [|exact Hw].
    eapply sameSchedule_trans; [|apply runAnalysis_resume_schedule].
    repeat split.
  - apply transformContent_resume_singleTrigger.
    apply (singleTrigger_same w); [repeat split | exact Hw].
Qed.

End Debounce.

Section Coalescing.
Context {platform : Platform}.

Lemma longEnough_not_empty (text : jsstring) :
  longEnough text = true -> text <> [].
Proof. intros H ->. discriminate H. Qed.


(** Time passes and no timer is pending: nothing happens. *)
Lemma elapse_idle (dt : N) (w : World) :
  timers w = [] ->
  timers (elapse dt w) = [] /\ app (elapse dt w) = app w
  /\ network (elapse dt w) = network w /\ inflight (elapse dt w) = inflight w
  /\ settled (elapse dt w) = settled w
  /\ nextTimerId (elapse dt w) = nextTimerId w.
Proof. intros H. unfold elapse. rewrite H. simpl. repeat split. Qed.

(** Time passes and the pending timer is not due yet: nothing happens. *)
Lemma elapse_early (dt : N) (w : World) (t : Timer) :
  timers w = [t] -> (now w + dt < timer_due t)%N ->
  timers (elapse dt w) = [t] /\ app (elapse dt w) = app w
  /\ network (elapse dt w) = network w /\ inflight (elapse dt w) = inflight w
  /\ settled (elapse dt w) = settled w
  /\ nextTimerId (elapse dt w) = nextTimerId w.
Proof.
  intros H Hdue. unfold elapse. rewrite H. simpl. unfold isDue.
  apply N.leb_gt in Hdue. rewrite Hdue. simpl. repeat split.
Qed.

(** Time passes and the pending timer is due: it fires once, and
    [runAnalysis] sends its call at that time. *)
Lemma elapse_fire (dt : N) (w : World) (t : Timer) :
  timers w = [t] -> (timer_due t <= now w + dt)%N -> timer_text t <> [] ->
  timers (elapse dt w) = []
  /\ network (elapse dt w)
     = network w ++ [(timer_due t, analyzeText_request (timer_text t))]
  /\ inflight (elapse dt w)
     = inflight w ++ [(nextRequestId w, PendingAnalysis (timer_text t))]
  /\ analysis (app (elapse dt w)) = analysis (app w)
  /\ settled (elapse dt w) = settled w
  /\ nextTimerId (elapse dt w) = nextTimerId w
  /\ debounceTimeout (app (elapse dt w)) = debounceTimeout (app w).
Proof.
  intros H Hdue Htext. unfold elapse. rewrite H. simpl. unfold isDue.
  apply N.leb_le in Hdue. rewrite Hdue. simpl. unfold fire.
  destruct (timer_text t) as [|c text] eqn:E; [contradiction|].
  simpl. repeat split.
Qed.

Lemma elapse_now (dt : N) (w : World) : now (elapse dt w) = (now w + dt)%N.
Proof. reflexivity. Qed.

Lemma elapse_singleTrigger (dt : N) (w : World) :
  singleTrigger w -> singleTrigger (elapse dt w).
Proof.
  intros [Hnext [Hnone | (t & Ht & Hd & Hid & Hlong)]].
  - destruct (elapse_idle dt w Hnone) as (H1 & H2 & _ & _ & _ & H3).
    split; [congruence | left; exact H1].
  - destruct (N.lt_ge_cases (now w + dt) (timer_due t)) as [Hearly | Hdue].
    + destruct (elapse_early dt w t Ht Hearly) as (H1 & H2 & _ & _ & _ & H3).
      split; [congruence|]. right. exists t. rewrite H2. repeat split; assumption.
    + destruct (elapse_fire dt w t Ht Hdue (longEnough_not_empty _ Hlong))
        as (H1 & _ & _ & _ & _ & H3 & _).
      split; [congruence | left; exact H1].
Qed.

(** Every state of the component has at most one pending trigger. *)
Lemma reachable_singleTrigger (w : World) : reachable w -> singleTrigger w.
Proof.
  induction 1 as [|w e Hw IH].
  - unfold constructed. apply debounceEffect_singleTrigger.
    apply (singleTrigger_same emptyWorld); [apply runAnalysis_schedule|].
    split; [discriminate | left; reflexivity].
  - destruct e; simpl.
    + apply editorContent_set_singleTrigger; exact IH.
    + apply editorContent_set_singleTrigger; exact IH.
    + apply editorContent_set_singleTrigger; exact IH.
    + apply (singleTrigger_same w); [apply transformContent_schedule | exact IH].
    + apply (singleTrigger_same w); [apply doResize_schedule | exact IH].
    + apply elapse_singleTrigger; exact IH.
    + apply settle_singleTrigger; exact IH.
Qed.

End Coalescing.

Section StoredAnalysis.
Context {platform : Platform}.



Lemma debounceEffect_analysis (w : World) :
  analysis (app (debounceEffect w))
  = if longEnough (stripHtml (editorContent (app w)))
    then analysis (app w) else JNull.
Proof.
  unfold debounceEffect, longEnough.
  destruct (cancelDebounce_frame w) as (Happ & _).
  destruct (10 <? length (trim (stripHtml (editorContent (app w))))); simpl;
    [rewrite Happ|]; reflexivity.
Qed.

Lemma contentChange_sameAnalysis (html : jsstring) (w : World) :
  sameAnalysis w (contentChange html w).
Proof.
  unfold contentChange.
  destruct (debounceEffect_inflight (set_editorContent html w)) as [Hi Hs].
  split; [exact Hi|]. split; [exact Hs|].
  rewrite debounceEffect_analysis.
  destruct (longEnough _); [left | right]; reflexivity.
Qed.

Lemma editorContent_set_sameAnalysis (v : jsstring) (w : World) :
  sameAnalysis w (editorContent_set v w).
Proof.
  unfold editorContent_set.
  destruct (JS.eqb v (editorContent (app w))).
  - repeat split. left; reflexivity.
  - apply contentChange_sameAnalysis.
Qed.






Lemma transformContent_resume_sameAnalysis
    (sel : bool) (action : jsstring) (r : outcome (option jsstring)) (w : World) :
  sameAnalysis w (transformContent_resume sel action r w).
Proof.
  unfold transformContent_resume.
  destruct r as [[t|]|e]; [destruct sel| destruct sel |];
    try (repeat split; left; reflexivity).
  destruct (editorContent_set_sameAnalysis
              (str "<div>" ++ replaceNewlines t ++ str "</div>") w)
    as (Hi & Hs & Ha).
  split; [exact Hi|]. split; [exact Hs|]. exact Ha.
Qed.





End StoredAnalysis.

Section Bursts.
Context {platform : Platform}.









(** A series of inputs is a run of the component: time passes, then the
    editor reports its content. *)
Lemma edits_as_events (burst : list (N * jsstring)) :
  forall w : World,
    edits burst w
    = fold_left step
        (flat_map (fun e => [Elapse (fst e); Input (snd e)]) burst) w.
Proof.
  induction burst as [|[gap html] burst IH]; intros w; [reflexivity|].
  cbn [edits flat_map List.app fold_left fst snd step]. apply IH.
Qed.

End Bursts.

Section DebounceClaims.
Context {platform : Platform}.



End DebounceClaims.

Section DebounceExamples.
#[local] Existing Instance simplePlatform.





(** The same inputs as events of the component: the input that repeats
    the content does not move the call, which goes out 1000 ms after the
    last mutation. *)
Example inputs_with_repeat_as_events :
  network (fold_left step
             [ Input (str "<div>a text</div>");
               Elapse 300; Input (str "<div>a text that is long</div>");
               Elapse 200; Input (str "<div>a text that is long enough</div>");
               Elapse 100; Input (str "<div>a text that is long enough</div>");
               Elapse 900 ]
             constructed)
  = network constructed
    ++ [(1500%N, analyzeText_request (str "a text that is long enough"))].
Proof. vm_compute. reflexivity. Qed.

(** The race that the design accepts: a call that is under way when the
    text becomes short still stores its result when it returns. *)
Example late_answer_after_short_text :
  analysis (app (step constructed (Input (str "<div>hi</div>")))) = JNull
  /\ analysis (app (step (step constructed (Input (str "<div>hi</div>")))
                        (Settle 1 (Replied (Some angryResponse)))))
     <> JNull
  /\ length (stripHtml (editorContent
                          (app (step (step constructed (Input (str "<div>hi</div>")))
                                  (Settle 1 (Replied (Some angryResponse)))))))
     = 2.
Proof.
  split; [vm_compute; reflexivity|].
  split; [vm_compute; discriminate | vm_compute; reflexivity].
Qed.

(** Without any edit the initial content is analysed twice: by the call of
    the constructor and, a second later, by the trigger of the first run of
    the effect. *)
Example initial_content_analysed_twice :
  network (elapse 1000 constructed)
  = [ (0%N, analyzeText_request (stripHtml initialContent));
      (1000%N, analyzeText_request (stripHtml initialContent)) ].
Proof. vm_compute. reflexivity. Qed.

End DebounceExamples.

(* ================================================================== *)
(** * More on [applyGrammarCorrection] and [applySuggestion] *)

Section Corrections.
Context {platform : Platform}.

(** X1.  A correction without a dollar sign takes the place of the first
    occurrence of the mistake in the markup; what comes before and after
    that occurrence, later occurrences included, stays as it is. *)
Theorem grammarCorrection_first_occurrence_only
    (mistake correction before after : jsstring) (w : World) :
  editorContent (app w) = before ++ mistake ++ after ->
  (forall m, m < length before -> ~ occursAt mistake (editorContent (app w)) m) ->
  ~ In 36%N correction ->
  editorContent (app (applyGrammarCorrection mistake correction w))
  = before ++ correction ++ after.
Proof.
  intros Hcontent Hfirst Hplain.
  rewrite applyGrammarCorrection_content.
  apply replace_first_occurrence; assumption.
Qed.

(** X2.  A correction whose mistake does not occur in the markup does
    nothing at all: the signal keeps its value, so the effect does not run
    and a pending trigger keeps its time. *)
Theorem grammarCorrection_absent_mistake
    (mistake correction : jsstring) (w : World) :
  (forall n, ~ occursAt mistake (editorContent (app w)) n) ->
  applyGrammarCorrection mistake correction w = w.
Proof.
  intros Habsent. unfold applyGrammarCorrection, editorContent_set.
  rewrite (replace_absent _ _ correction Habsent), eqb_refl. reflexivity.
Qed.

Lemma wrapped_no_line_feed (text : jsstring) : ~ In 10%N (wrapped text).
Proof.
  unfold wrapped. intros H.
  apply in_app_or in H. destruct H as [H | H].
  - simpl in H. repeat (destruct H as [H | H]; [discriminate H|]). exact H.
  - apply in_app_or in H. destruct H as [H | H].
    + unfold replaceNewlines in H. apply in_flat_map in H.
      destruct H as (c & _ & Hc). destruct (N.eqb c 10) eqn:E.
      * simpl in Hc. repeat (destruct Hc as [Hc | Hc]; [discriminate Hc|]).
        exact Hc.
      * destruct Hc as [Hc | []]. subst c. discriminate E.
    + simpl in H. repeat (destruct H as [H | H]; [discriminate H|]). exact H.
Qed.

(** X3.  [applySuggestion] makes the content the suggestion inside one
    [div], with every line feed turned into a [br], so the content has no
    line feed; applying the same suggestion again changes nothing. *)
Theorem applySuggestion_wraps_once (suggestion : jsstring) (w : World) :
  editorContent (app (applySuggestion suggestion w))
  = str "<div>" ++ replaceNewlines suggestion ++ str "</div>"
  /\ ~ In 10%N (editorContent (app (applySuggestion suggestion w)))
  /\ applySuggestion suggestion (applySuggestion suggestion w)
     = applySuggestion suggestion w.
Proof.
  assert (Hvalue : editorContent (app (applySuggestion suggestion w))
                   = wrapped suggestion)
    by (unfold applySuggestion; apply editorContent_set_value).
  split; [exact Hvalue|]. split.
  - rewrite Hvalue. apply wrapped_no_line_feed.
  - unfold applySuggestion at 1. unfold editorContent_set.
    fold (wrapped suggestion). rewrite Hvalue, eqb_refl. reflexivity.
Qed.

End Corrections.

Section CorrectionsExamples.
#[local] Existing Instance simplePlatform.

Lemma grammarCorrection_first_occurrence_only_witness :
  editorContent (app (applyGrammarCorrection (str "teh") (str "the")
                        (set_editorContent (str "<div>teh cat and teh dog</div>")
                           emptyWorld)))
  = str "<div>the cat and teh dog</div>".
Proof.
  assert (Hindex : indexOf (str "<div>teh cat and teh dog</div>") (str "teh")
                   = Some 5) by (vm_compute; reflexivity).
  apply (grammarCorrection_first_occurrence_only
           (str "teh") (str "the") (str "<div>") (str " cat and teh dog</div>")
           (set_editorContent (str "<div>teh cat and teh dog</div>") emptyWorld)).
  - reflexivity.
  - exact (proj2 (indexOf_Some _ _ _ Hindex)).
  - vm_compute. intros H.
    repeat (destruct H as [H | H]; [discriminate H|]). exact H.
Defined.

Lemma grammarCorrection_absent_mistake_witness :
  applyGrammarCorrection (str "ur") (str "your")
    (set_editorContent (str "<div>i think so</div>") constructed)
  = set_editorContent (str "<div>i think so</div>") constructed.
Proof.
  apply grammarCorrection_absent_mistake.
  apply indexOf_None. vm_compute. reflexivity.
Defined.

End CorrectionsExamples.

(* ================================================================== *)
(** * More on [toneColorClass] *)

Section ToneOfAnyResult.
Context {platform : Platform}.

(** The computed signal on any stored value: the default without an
    analysis, a [TypeError] when there is no string at [tone.name], the
    lookup of the lower-cased name otherwise. *)
Lemma toneColorClass_shape (w : World) :
  toneColorClass w
  = match analysis (app w) with
    | JNull => Returned (ClassString defaultToneClass)
    | a => match toneNameOf a with
           | Some toneName => Returned (classOfKey (toLowerCase toneName))
           | None => Thrown TypeError
           end
    end.
Proof.
  unfold toneColorClass, toneNameOf, classOfKey.
  destruct (analysis (app w)) as [| | | | |members]; try reflexivity.
  cbn [getProperty].
  destruct (member (str "tone") members) as [[| | | | |toneMembers]|];
    try reflexivity.
  cbn [getProperty].
  destruct (member (str "name") toneMembers) as [[| | |s| |]|]; try reflexivity.
  cbn [call_toLowerCase].
  destruct (toLowerCase s) as [|c key]; [reflexivity|].
  destruct (toneColorMap_get (c :: key)) as [[[|]|]|]; reflexivity.
Qed.

(** X4.  Whatever else the stored analysis holds, when its [tone.name] is
    a string whose lower-casing is a key of the table, the class is the
    colour of that key; so two names that differ in case only get the
    same class. *)
Theorem toneColorClass_of_known_tone
    (w : World) (toneName color : jsstring) :
  toneNameOf (analysis (app w)) = Some toneName ->
  ownProperty (toLowerCase toneName) toneColorMap = Some color ->
  toneColorClass w = Returned (ClassString color)
  /\ forall w' other,
       toneNameOf (analysis (app w')) = Some other ->
       toLowerCase other = toLowerCase toneName ->
       toneColorClass w' = toneColorClass w.
Proof.
  intros Hname Hkey.
  assert (Hshape : forall w0 n, toneNameOf (analysis (app w0)) = Some n ->
            toneColorClass w0 = Returned (classOfKey (toLowerCase n))).
  { intros w0 n Hn. rewrite toneColorClass_shape.
    destruct (analysis (app w0)); try discriminate Hn; rewrite Hn; reflexivity. }
  split.
  - rewrite (Hshape w toneName Hname). unfold classOfKey, toneColorMap_get.
    destruct (toLowerCase toneName) as [|c key] eqn:E; [discriminate Hkey|].
    rewrite Hkey. pose proof (toneColorMap_colors _ _ Hkey).
    destruct color; [contradiction | reflexivity].
  - intros w' other Hother Hsame.
    rewrite (Hshape w' other Hother), (Hshape w toneName Hname), Hsame.
    reflexivity.
Qed.

(** X5.  The class is the default one without an analysis, for a tone name
    whose lower-casing is empty, and for a tone name whose lower-casing is
    neither a key of the table nor a name that objects inherit. *)
Theorem toneColorClass_default (w : World) :
  (analysis (app w) = JNull ->
   toneColorClass w = Returned (ClassString defaultToneClass))
  /\ (forall toneName,
        toneNameOf (analysis (app w)) = Some toneName ->
        toLowerCase toneName = []
        \/ (ownProperty (toLowerCase toneName) toneColorMap = None
            /\ ~ In (toLowerCase toneName) objectPrototypeNames) ->
        toneColorClass w = Returned (ClassString defaultToneClass)).
Proof.
  split.
  - intros H. rewrite toneColorClass_shape, H. reflexivity.
  - intros toneName Hname Hcase. rewrite toneColorClass_shape.
    destruct (analysis (app w)); try discriminate Hname; rewrite Hname;
      unfold classOfKey;
      (destruct Hcase as [-> | [Hkey Hown]]; [reflexivity|]);
      (destruct (toLowerCase toneName) as [|c key] eqn:E; [reflexivity|]);
      unfold toneColorMap_get; rewrite Hkey;
      (destruct (existsb (JS.eqb (c :: key)) objectPrototypeNames) eqn:Ex;
       [apply inherited_spec in Ex; contradiction | reflexivity]).
Qed.

(** X6.  The computed signal throws exactly when an analysis is stored
    that has no string at [tone.name] (no [tone], a [tone] that is not an
    object, no [name], a [name] that is not a string), and what it throws
    is a [TypeError]. *)
Theorem toneColorClass_throws (w : World) :
  (forall e, toneColorClass w = Thrown e -> e = TypeError)
  /\ (toneColorClass w = Thrown TypeError
      <-> analysis (app w) <> JNull /\ toneNameOf (analysis (app w)) = None).
Proof.
  rewrite toneColorClass_shape.
  destruct (analysis (app w)) as [| | | | |members] eqn:Ea.
  1: { split; [intros e H; discriminate H|].
       split; [intros H; discriminate H
              | intros [H _]; contradiction H; reflexivity]. }
  all: destruct (toneNameOf _) as [toneName|] eqn:En.
  all: split; [intros e H; congruence|].
  all: split;
    [ intros H; first [discriminate H | split; [discriminate | reflexivity]]
    | intros [_ H2]; first [discriminate H2 | reflexivity] ].
Qed.

End ToneOfAnyResult.

Section ToneOfAnyResultExamples.
#[local] Existing Instance simplePlatform.

Lemma toneColorClass_of_known_tone_witness :
  toneNameOf (analysis (app analysed)) = Some (str "Angry")
  /\ ownProperty (toLowerCase (str "Angry")) toneColorMap = Some (str "bg-red-600")
  /\ toneColorClass analysed = Returned (ClassString (str "bg-red-600")).
Proof.
  assert (H1 : toneNameOf (analysis (app analysed)) = Some (str "Angry"))
    by (vm_compute; reflexivity).
  assert (H2 : ownProperty (toLowerCase (str "Angry")) toneColorMap
               = Some (str "bg-red-600")) by (vm_compute; reflexivity).
  split; [exact H1|]. split; [exact H2|].
  exact (proj1 (toneColorClass_of_known_tone analysed (str "Angry")
                  (str "bg-red-600") H1 H2)).
Defined.

Lemma toneColorClass_default_witness :
  toneColorClass emptyWorld = Returned (ClassString defaultToneClass)
  /\ toneColorClass (set_analysis (jsonOfResult (resultWithTone (str "Wistful")))
                       emptyWorld)
     = Returned (ClassString defaultToneClass).
Proof.
  split.
  - apply (proj1 (toneColorClass_default emptyWorld)). reflexivity.
  - apply (proj2 (toneColorClass_default
                    (set_analysis (jsonOfResult (resultWithTone (str "Wistful")))
                       emptyWorld)) (str "Wistful")).
    + vm_compute. reflexivity.
    + right. split; [vm_compute; reflexivity|].
      vm_compute. intros H.
      repeat (destruct H as [H | H]; [discriminate H|]). exact H.
Defined.

Lemma toneColorClass_throws_witness :
  toneNameOf parsedWithoutTone = None
  /\ toneColorClass (set_analysis parsedWithoutTone emptyWorld) = Thrown TypeError.
Proof.
  assert (H : toneNameOf parsedWithoutTone = None) by (vm_compute; reflexivity).
  split; [exact H|].
  apply (proj2 (toneColorClass_throws (set_analysis parsedWithoutTone emptyWorld))).
  split; [discriminate | exact H].
Defined.

End ToneOfAnyResultExamples.

(* ================================================================== *)
(** * More on [transformContent] *)

Section TransformTargets.
Context {platform : Platform}.

(** X7.  [transformContent] always closes the menu of further actions.
    With no selection that counts and an empty document it does nothing
    else: no call goes out and [isLoading], [error] and the content keep
    their values. *)
Theorem transformContent_nothing_to_transform
    (action : jsstring) (selection : option Selection) (w : World) :
  showMoreActions (app (transformContent action selection w)) = false
  /\ (hasSelection selection = false ->
      stripHtml (editorContent (app w)) = [] ->
      network (transformContent action selection w) = network w
      /\ inflight (transformContent action selection w) = inflight w
      /\ isLoading (app (transformContent action selection w)) = isLoading (app w)
      /\ error (app (transformContent action selection w)) = error (app w)
      /\ analysis (app (transformContent action selection w)) = analysis (app w)).
Proof.
  split.
  - unfold transformContent.
    match goal with |- context [match ?t with [] => _ | _ :: _ => _ end] =>
      destruct t end; reflexivity.
  - intros Hsel Hempty. unfold transformContent. rewrite Hsel. simpl.
    rewrite Hempty. repeat split.
Qed.

(** X8.  A selection that is collapsed, or whose text is blank, is ignored:
    the call is the one for the whole document.  A selection that counts
    is sent as it is, untrimmed, and the document is left out. *)
Theorem transformContent_selection
    (action : jsstring) (s : Selection) (w : World) :
  (isCollapsed s = true \/ trim (selectedText s) = [] ->
   transformContent action (Some s) w = transformContent action None w)
  /\ (isCollapsed s = false -> trim (selectedText s) <> [] ->
      network (transformContent action (Some s) w)
      = network w ++ [(now w, transformText_request (selectedText s) action)]
      /\ In (nextRequestId w, PendingTransform true action)
           (inflight (transformContent action (Some s) w))).
Proof.
  split.
  - intros H.
    assert (Hsel : hasSelection (Some s) = false).
    { unfold hasSelection. destruct H as [-> | ->]; [reflexivity|].
      apply andb_false_r. }
    unfold transformContent. rewrite Hsel. reflexivity.
  - intros Hopen Htext.
    assert (Hsel : hasSelection (Some s) = true).
    { unfold hasSelection. rewrite Hopen. simpl.
      destruct (trim (selectedText s)); [contradiction | reflexivity]. }
    unfold transformContent. rewrite Hsel. simpl.
    destruct (selectedText s) as [|c text] eqn:E.
    + exfalso. apply Htext. reflexivity.
    + simpl. split; [reflexivity|]. apply in_or_app. right. left. reflexivity.
Qed.

End TransformTargets.

Section TransformTargetsExamples.
#[local] Existing Instance simplePlatform.

Lemma transformContent_nothing_to_transform_witness :
  hasSelection None = false
  /\ stripHtml (str "<div></div>") = []
  /\ network (transformContent (str "shorten") None
                (set_editorContent (str "<div></div>") constructed))
     = network constructed.
Proof.
  assert (H1 : hasSelection None = false) by reflexivity.
  assert (H2 : stripHtml (editorContent
                 (app (set_editorContent (str "<div></div>") constructed))) = [])
    by (vm_compute; reflexivity).
  split; [exact H1|]. split; [vm_compute; reflexivity|].
  rewrite (proj1 (proj2 (transformContent_nothing_to_transform (str "shorten") None
                           (set_editorContent (str "<div></div>") constructed))
                    H1 H2)).
  vm_compute. reflexivity.
Defined.

Lemma transformContent_selection_witness :
  transformContent (str "shorten")
    (Some {| isCollapsed := false; selectedText := str "   " |}) constructed
  = transformContent (str "shorten") None constructed
  /\ network (transformContent (str "shorten")
                (Some {| isCollapsed := false; selectedText := str " a plan " |})
                emptyWorld)
     = [(0%N, transformText_request (str " a plan ") (str "shorten"))].
Proof.
  assert (H1 : isCollapsed {| isCollapsed := false; selectedText := str "   " |} = true
               \/ trim (selectedText {| isCollapsed := false;
                                         selectedText := str "   " |}) = [])
    by (right; vm_compute; reflexivity).
  assert (H2 : trim (selectedText {| isCollapsed := false;
                                     selectedText := str " a plan " |}) <> [])
    by (vm_compute; discriminate).
  split.
  - rewrite (proj1 (transformContent_selection (str "shorten")
                      {| isCollapsed := false; selectedText := str "   " |}
                      constructed) H1).
    reflexivity.
  - rewrite (proj1 (proj2 (transformContent_selection (str "shorten")
                             {| isCollapsed := false; selectedText := str " a plan " |}
                             emptyWorld) eq_refl H2)).
    vm_compute. reflexivity.
Defined.

End TransformTargetsExamples.

(* ================================================================== *)
(** * The loading flag and the calls under way *)

Section Loading.
Context {platform : Platform}.

Lemma snoc_not_nil {A : Type} (l : list A) (x : A) : l ++ [x] <> [].
Proof. destruct l; discriminate. Qed.

Lemma settle_isLoading (id : N) (r : Response) (w : World) (k : Pending) :
  lookupPending id (inflight w) = Some k ->
  isLoading (app (settle id r w)) = false.
Proof.
  intros Hid. unfold settle. rewrite Hid. destruct k; reflexivity.
Qed.

Lemma transformContent_resume_inflight
    (sel : bool) (action : jsstring) (r : outcome (option jsstring)) (w : World) :
  inflight (transformContent_resume sel action r w) = inflight w.
Proof.
  destruct (transformContent_resume_sameAnalysis sel action r w) as [H _].
  exact H.
Qed.

Lemma settle_inflight (id : N) (r : Response) (w : World) (k : Pending) :
  lookupPending id (inflight w) = Some k ->
  inflight (settle id r w)
  = filter (fun p => negb (N.eqb (fst p) id)) (inflight w).
Proof.
  intros Hid. unfold settle. rewrite Hid. destruct k as [text | sel action].
  - destruct (analyzeText_result r); reflexivity.
  - rewrite transformContent_resume_inflight. reflexivity.
Qed.

Lemma lookupPending_other (id id' : N) (l : list (N * Pending)) :
  id' <> id ->
  lookupPending id' (filter (fun p => negb (N.eqb (fst p) id)) l)
  = lookupPending id' l.
Proof.
  intros Hneq. induction l as [|[i k] l IH]; [reflexivity|].
  simpl. destruct (N.eqb i id) eqn:E; simpl.
  - apply N.eqb_eq in E. subst i.
    destruct (N.eqb id id') eqn:E'; [|exact IH].
    apply N.eqb_eq in E'. congruence.
  - rewrite IH. reflexivity.
Qed.

(** X9.  In every state of the component, [isLoading] is set only while
    some call of the model is under way. *)
Theorem loading_only_with_call_under_way (w : World) :
  reachable w -> isLoading (app w) = true -> inflight w <> [].
Proof.
  induction 1 as [|w e Hw IH].
  - unfold constructed.
    destruct (debounceEffect_flags
                (runAnalysis (stripHtml initialContent) emptyWorld)) as (-> & _).
    destruct (debounceEffect_inflight
                (runAnalysis (stripHtml initialContent) emptyWorld)) as (-> & _).
    destruct (stripHtml initialContent) as [|c text]; simpl;
      [discriminate | intros _; discriminate].
  - pose proof (reachable_singleTrigger w Hw) as Hsingle.
    assert (Hset : forall v, isLoading (app (editorContent_set v w)) = true ->
                             inflight (editorContent_set v w) <> []).
    { intros v. destruct (editorContent_set_flags v w) as (-> & _).
      destruct (editorContent_set_sameAnalysis v w) as (-> & _). exact IH. }
    destruct e; cbn [step].
    + unfold onContentChange. apply Hset.
    + unfold applySuggestion. apply Hset.
    + unfold applyGrammarCorrection. apply Hset.
    + unfold transformContent.
      match goal with |- context [match ?t with [] => _ | _ :: _ => _ end] =>
        destruct t end; simpl; [exact IH | intros _; apply snoc_not_nil].
    + unfold doResize.
      destruct (PrimFloat.ltb 25 (clientX / innerWidth * 100)
                && PrimFloat.ltb (clientX / innerWidth * 100) 75)%bool;
        exact IH.
    + destruct Hsingle as [_ [Hnone | (t & Ht & _ & _ & Hlong)]].
      * destruct (elapse_idle dt w Hnone) as (_ & -> & _ & -> & _). exact IH.
      * destruct (N.lt_ge_cases (now w + dt) (timer_due t)) as [Hearly | Hdue].
        -- destruct (elapse_early dt w t Ht Hearly) as (_ & -> & _ & -> & _).
           exact IH.
        -- destruct (elapse_fire dt w t Ht Hdue (longEnough_not_empty _ Hlong))
             as (_ & _ & -> & _).
           intros _. apply snoc_not_nil.
    + destruct (lookupPending id (inflight w)) as [k|] eqn:E.
      * rewrite (settle_isLoading id r w k E). discriminate.
      * unfold settle. rewrite E. exact IH.
Qed.

(** X10.  The flag does not count the calls: when one of two calls under
    way settles, [isLoading] is reset although the other call is still
    awaited. *)
Theorem loading_reset_by_first_answer
    (w : World) (id id' : N) (k k' : Pending) (r : Response) :
  lookupPending id (inflight w) = Some k ->
  lookupPending id' (inflight w) = Some k' ->
  id' <> id ->
  isLoading (app (settle id r w)) = false
  /\ lookupPending id' (inflight (settle id r w)) = Some k'.
Proof.
  intros Hid Hid' Hneq. split.
  - exact (settle_isLoading id r w k Hid).
  - rewrite (settle_inflight id r w k Hid), lookupPending_other by exact Hneq.
    exact Hid'.
Qed.

End Loading.

Section LoadingExamples.
#[local] Existing Instance simplePlatform.

Lemma loading_only_with_call_under_way_witness :
  reachable constructed
  /\ isLoading (app constructed) = true
  /\ inflight constructed <> [].
Proof.
  assert (H1 : reachable constructed) by apply reachable_constructed.
  assert (H2 : isLoading (app constructed) = true) by (vm_compute; reflexivity).
  split; [exact H1|]. split; [exact H2|].
  exact (loading_only_with_call_under_way constructed H1 H2).
Defined.

Lemma loading_reset_by_first_answer_witness :
  isLoading (app (settle 1 Rejected
                    (transformContent (str "shorten") None constructed))) = false
  /\ lookupPending 2 (inflight (settle 1 Rejected
                                  (transformContent (str "shorten") None constructed)))
     = Some (PendingTransform false (str "shorten")).
Proof.
  assert (H1 : lookupPending 1 (inflight (transformContent (str "shorten") None
                                            constructed))
               = Some (PendingAnalysis (stripHtml initialContent)))
    by (vm_compute; reflexivity).
  assert (H2 : lookupPending 2 (inflight (transformContent (str "shorten") None
                                            constructed))
               = Some (PendingTransform false (str "shorten")))
    by (vm_compute; reflexivity).
  assert (H3 : 2%N <> 1%N) by discriminate.
  exact (loading_reset_by_first_answer
           (transformContent (str "shorten") None constructed) 1%N 2%N
           _ _ Rejected H1 H2 H3).
Defined.

End LoadingExamples.

(* ================================================================== *)
(** * The width of the editor *)

Section Width.
Context {platform : Platform}.

Lemma debounceEffect_width (w : World) :
  editorWidthPercent (app (debounceEffect w)) = editorWidthPercent (app w).
Proof.
  unfold debounceEffect, cancelDebounce.
  destruct (debounceTimeout (app w)) as [id|]; [destruct (N.eqb id 0)|];
    destruct (10 <? length (trim (stripHtml (editorContent (app w)))));
    reflexivity.
Qed.

Lemma editorContent_set_width (v : jsstring) (w : World) :
  editorWidthPercent (app (editorContent_set v w)) = editorWidthPercent (app w).
Proof.
  unfold editorContent_set, contentChange.
  destruct (JS.eqb v (editorContent (app w))); [reflexivity|].
  rewrite debounceEffect_width. reflexivity.
Qed.

Lemma fire_width (l : list Timer) :
  forall w, editorWidthPercent (app (fold_left fire l w))
            = editorWidthPercent (app w).
Proof.
  induction l as [|t l IH]; intros w; [reflexivity|].
  simpl. rewrite IH. unfold fire. destruct (timer_text t); reflexivity.
Qed.

Lemma elapse_width (dt : N) (w : World) :
  editorWidthPercent (app (elapse dt w)) = editorWidthPercent (app w).
Proof.
  unfold elapse, set_now. cbn [app]. rewrite fire_width. reflexivity.
Qed.

Lemma settle_width (id : N) (r : Response) (w : World) :
  editorWidthPercent (app (settle id r w)) = editorWidthPercent (app w).
Proof.
  unfold settle.
  destruct (lookupPending id (inflight w)) as [[text | sel action]|];
    [| |reflexivity].
  - destruct (analyzeText_result r); reflexivity.
  - unfold transformContent_resume.
    destruct (transformText_result r) as [[t|]|e]; [destruct sel | destruct sel|];
      try reflexivity.
    unfold set_isLoading, update. cbn [app editorWidthPercent].
    rewrite editorContent_set_width. reflexivity.
Qed.

(** X11.  In every state of the component the width of the editor is
    strictly between 25 and 75 per cent: it starts at 66 and [doResize] is
    the only method that writes it. *)
Theorem width_stays_inside (w : World) :
  reachable w -> strictlyInside (editorWidthPercent (app w)).
Proof.
  induction 1 as [|w e Hw IH].
  - unfold constructed. rewrite debounceEffect_width.
    destruct (stripHtml initialContent); split; reflexivity.
  - destruct e; cbn [step].
    + unfold onContentChange. rewrite editorContent_set_width. exact IH.
    + unfold applySuggestion. rewrite editorContent_set_width. exact IH.
    + unfold applyGrammarCorrection. rewrite editorContent_set_width. exact IH.
    + unfold transformContent.
      match goal with |- context [match ?t with [] => _ | _ :: _ => _ end] =>
        destruct t end; exact IH.
    + unfold doResize.
      destruct (PrimFloat.ltb 25 (clientX / innerWidth * 100)) eqn:Elow;
        destruct (PrimFloat.ltb (clientX / innerWidth * 100) 75) eqn:Ehigh;
        simpl; try exact IH.
      split; assumption.
    + rewrite elapse_width. exact IH.
    + rewrite settle_width. exact IH.
Qed.

End Width.

Section WidthExamples.
#[local] Existing Instance simplePlatform.

Lemma width_stays_inside_witness :
  reachable (step (step constructed (Resize 900 1000)) (Resize 300 1000))
  /\ editorWidthPercent
       (app (step (step constructed (Resize 900 1000)) (Resize 300 1000)))
     = 30%float
  /\ strictlyInside
       (editorWidthPercent
          (app (step (step constructed (Resize 900 1000)) (Resize 300 1000)))).
Proof.
  assert (H : reachable (step (step constructed (Resize 900 1000))
                           (Resize 300 1000)))
    by (do 2 apply reachable_step; apply reachable_constructed).
  split; [exact H|]. split; [vm_compute; reflexivity|].
  exact (width_stays_inside _ H).
Defined.

End WidthExamples.

(* ================================================================== *)
(** * Answers, new content and the next analysis *)

Section Answers.
Context {platform : Platform}.

Lemma transformContent_resume_network
    (sel : bool) (action : jsstring) (r : outcome (option jsstring)) (w : World) :
  network (transformContent_resume sel action r w) = network w.
Proof.
  unfold transformContent_resume.
  destruct r as [[t|]|e]; [destruct sel | destruct sel|]; try reflexivity.
  unfold set_isLoading, update. cbn [network].
  destruct (editorContent_set_flags
              (str "<div>" ++ replaceNewlines t ++ str "</div>") w)
    as (_ & _ & H & _).
  exact H.
Qed.

(** X12.  No answer makes the component call the model: when a call
    settles, whatever the outcome, no call goes out.  When an analysis
    settles, with a result or with an error, the content and the pending
    trigger are left as they are as well: a failed analysis is not tried
    again. *)
Theorem settle_sends_nothing (id : N) (r : Response) (w : World) :
  network (settle id r w) = network w
  /\ (forall text,
        lookupPending id (inflight w) = Some (PendingAnalysis text) ->
        timers (settle id r w) = timers w
        /\ editorContent (app (settle id r w)) = editorContent (app w)
        /\ lookupPending id (inflight (settle id r w)) = None).
Proof.
  split.
  - unfold settle.
    destruct (lookupPending id (inflight w)) as [[text | sel action]|];
      [| |reflexivity].
    + destruct (analyzeText_result r); reflexivity.
    + rewrite transformContent_resume_network. reflexivity.
  - intros text Hid. rewrite (settle_inflight id r w _ Hid).
    unfold settle. rewrite Hid.
    split; [destruct (analyzeText_result r); reflexivity|].
    split; [destruct (analyzeText_result r); reflexivity|].
    clear Hid. induction (inflight w) as [|[i k] l IH]; [reflexivity|].
    simpl. destruct (N.eqb i id) eqn:E; simpl; [exact IH|].
    rewrite E. exact IH.
Qed.

Lemma editorContent_set_timers (v : jsstring) (w : World) :
  singleTrigger w ->
  v <> editorContent (app w) ->
  timers (editorContent_set v w)
  = if longEnough (stripHtml v)
    then [trigger (nextTimerId w) (now w) (stripHtml v)] else [].
Proof.
  intros Hsingle Hnew. unfold editorContent_set.
  apply eqb_neq in Hnew. rewrite Hnew. unfold contentChange.
  rewrite debounceEffect_timers
    by (apply (singleTrigger_same w); [repeat split | exact Hsingle]).
  reflexivity.
Qed.

(** X13.  Every method that gives the editor a content it did not have
    starts the debounce anew: after [onContentChange], [applySuggestion],
    [applyGrammarCorrection] or the answer to a transform of the whole
    document, the only pending trigger is the one for the text of the new
    content, due 1000 ms later, if that text is long enough; otherwise
    none is pending. *)
Theorem new_content_restarts_debounce (w : World) (v : jsstring) :
  reachable w ->
  v <> editorContent (app w) ->
  timers (onContentChange v w)
  = (if longEnough (stripHtml v)
     then [trigger (nextTimerId w) (now w) (stripHtml v)] else [])
  /\ (forall suggestion,
        str "<div>" ++ replaceNewlines suggestion ++ str "</div>" = v ->
        timers (applySuggestion suggestion w) = timers (onContentChange v w))
  /\ (forall mistake correction,
        JS.replace (editorContent (app w)) mistake correction = v ->
        timers (applyGrammarCorrection mistake correction w)
        = timers (onContentChange v w))
  /\ (forall id action newText,
        lookupPending id (inflight w) = Some (PendingTransform false action) ->
        str "<div>" ++ replaceNewlines newText ++ str "</div>" = v ->
        timers (settle id (Replied (Some newText)) w)
        = timers (onContentChange v w)).
Proof.
  intros Hw Hnew. pose proof (reachable_singleTrigger w Hw) as Hsingle.
  assert (Hinput : timers (onContentChange v w)
                   = if longEnough (stripHtml v)
                     then [trigger (nextTimerId w) (now w) (stripHtml v)] else [])
    by (apply editorContent_set_timers; assumption).
  split; [exact Hinput|]. split; [|split].
  - intros suggestion <-. reflexivity.
  - intros mistake correction <-. reflexivity.
  - intros id action newText Hid Hv. rewrite Hinput.
    unfold settle. rewrite Hid.
    unfold transformContent_resume, transformText_result, set_isLoading, update.
    cbn [timers]. rewrite Hv.
    rewrite editorContent_set_timers.
    + reflexivity.
    + apply (singleTrigger_same w); [repeat split | exact Hsingle].
    + exact Hnew.
Qed.

(** X14.  A change of the content does not cancel a call that is under
    way: when that analysis returns afterwards, its result is stored,
    whatever the content has become, even a content for which the effect
    has just cleared the analysis. *)
Theorem answer_outlives_content_change
    (w : World) (id : N) (text html : jsstring) (r : Response) (result : json) :
  lookupPending id (inflight w) = Some (PendingAnalysis text) ->
  analyzeText_result r = Returned result ->
  lookupPending id (inflight (contentChange html w)) = Some (PendingAnalysis text)
  /\ analysis (app (settle id r (contentChange html w))) = result
  /\ editorContent (app (settle id r (contentChange html w))) = html.
Proof.
  intros Hid Hr.
  assert (Hstill : lookupPending id (inflight (contentChange html w))
                   = Some (PendingAnalysis text)).
  { unfold contentChange.
    destruct (debounceEffect_inflight (set_editorContent html w)) as [-> _].
    exact Hid. }
  split; [exact Hstill|].
  unfold settle. rewrite Hstill, Hr. cbn [runAnalysis_resume]. split.
  - reflexivity.
  - unfold runAnalysis_resume, set_isLoading, set_analysis, update,
      recordSettled, removePending.
    cbn [app editorContent].
    unfold contentChange. rewrite debounceEffect_editorContent. reflexivity.
Qed.

End Answers.

Section AnswersExamples.
#[local] Existing Instance simplePlatform.

Lemma settle_sends_nothing_witness :
  lookupPending 1 (inflight constructed)
  = Some (PendingAnalysis (stripHtml initialContent))
  /\ network (settle 1 Rejected constructed) = network constructed
  /\ timers (settle 1 Rejected constructed) = timers constructed.
Proof.
  assert (H : lookupPending 1 (inflight constructed)
              = Some (PendingAnalysis (stripHtml initialContent)))
    by (vm_compute; reflexivity).
  destruct (settle_sends_nothing 1 Rejected constructed) as [Hnet Hrest].
  destruct (Hrest _ H) as (Htimers & _).
  split; [exact H|]. split; [exact Hnet | exact Htimers].
Defined.

Lemma new_content_restarts_debounce_witness :
  reachable constructed
  /\ str "<div>a brand new text</div>" <> editorContent (app constructed)
  /\ timers (applySuggestion (str "a brand new text") constructed)
     = [trigger 2 0 (str "a brand new text")].
Proof.
  assert (H1 : reachable constructed) by apply reachable_constructed.
  assert (H2 : str "<div>a brand new text</div>" <> editorContent (app constructed))
    by (vm_compute; discriminate).
  destruct (new_content_restarts_debounce constructed
              (str "<div>a brand new text</div>") H1 H2)
    as (Hinput & Hsuggestion & _).
  split; [exact H1|]. split; [exact H2|].
  rewrite (Hsuggestion (str "a brand new text") eq_refl), Hinput.
  vm_compute. reflexivity.
Defined.

Lemma answer_outlives_content_change_witness :
  lookupPending 1 (inflight constructed)
  = Some (PendingAnalysis (stripHtml initialContent))
  /\ analysis (app (contentChange (str "<div>hi</div>") constructed)) = JNull
  /\ analysis (app (settle 1 (Replied (Some (str "[1]")))
                      (contentChange (str "<div>hi</div>") constructed)))
     = JArray [JNumber (str "1")].
Proof.
  assert (H1 : lookupPending 1 (inflight constructed)
               = Some (PendingAnalysis (stripHtml initialContent)))
    by (vm_compute; reflexivity).
  assert (H2 : analyzeText_result (Replied (Some (str "[1]")))
               = Returned (JArray [JNumber (str "1")]))
    by (vm_compute; reflexivity).
  destruct (answer_outlives_content_change constructed 1%N _
              (str "<div>hi</div>") _ _ H1 H2) as (_ & Hstored & _).
  split; [exact H1|]. split; [vm_compute; reflexivity | exact Hstored].
Defined.

End AnswersExamples.

(* ================================================================== *)
(** * The prompts *)

Section Prompts.
Context {platform : Platform}.

(** X15.  On a platform that lower-cases the five actions of the menu as
    ASCII, each of them is sent with the generic template, the action in
    front as the menu spells it. *)
Theorem moreActions_use_generic_template (text : jsstring) :
  (forall action, In action moreActions -> toLowerCase action = asciiLower action) ->
  forall action, In action moreActions ->
    contents (transformText_request text action) = genericPrompt action text.
Proof.
  intros Hlower action Hin.
  unfold transformText_request, transformPrompt. cbn [contents].
  rewrite (Hlower action Hin).
  unfold moreActions in Hin.
  repeat (destruct Hin as [<- | Hin]; [vm_compute; reflexivity|]).
  contradiction.
Qed.

(** X16.  The prompt of [analyzeText] is its fixed instruction followed
    by the text between two double quotes; the prompt of [transformText]
    is the instruction of the action (one of the two fixed ones, or the
    action in front of [the following text:]) followed by the text between
    two double quotes.  The text goes in as it is, with nothing escaped or
    cut, and the prompt ends with the closing quote; so, for [analyzeText],
    and for [transformText] with any one action, two different texts never
    give the same prompt. *)
Theorem prompts_keep_the_text (text text' action : jsstring) :
  contents (analyzeText_request text)
  = str "Analyze the following text and provide feedback on its tone, suggest three alternative phrasings, and list any grammatical mistakes. Text: "
    ++ [dquote] ++ text ++ [dquote]
  /\ (exists instruction : jsstring,
        (instruction = str "Make the following text more concise: "
         \/ instruction
            = str "Rewrite the following text in a more formal and professional tone: "
         \/ instruction = action ++ str " the following text: ")
        /\ forall t : jsstring,
             contents (transformText_request t action)
             = instruction ++ [dquote] ++ t ++ [dquote])
  /\ (contents (analyzeText_request text) = contents (analyzeText_request text') ->
      text = text')
  /\ (contents (transformText_request text action)
      = contents (transformText_request text' action) ->
      text = text').
Proof.
  assert (Hquoted : forall (prefix a b : jsstring),
            prefix ++ [dquote] ++ a ++ [dquote] = prefix ++ [dquote] ++ b ++ [dquote] ->
            a = b).
  { intros prefix a b H. apply app_inv_head in H. apply app_inv_head in H.
    apply app_inv_tail in H. exact H. }
  split; [reflexivity|]. split; [|split].
  - unfold transformText_request, transformPrompt. cbn [contents].
    destruct (JS.eqb (toLowerCase action) (str "shorten")).
    { eexists. split; [left; reflexivity | intros t; reflexivity]. }
    destruct (JS.eqb (toLowerCase action) (str "formalize")).
    { eexists. split; [right; left; reflexivity | intros t; reflexivity]. }
    exists (action ++ str " the following text: ").
    split; [right; right; reflexivity|].
    intros t. rewrite <- app_assoc. reflexivity.
  - cbn [contents analyzeText_request]. apply Hquoted.
  - unfold transformText_request, transformPrompt. cbn [contents].
    destruct (JS.eqb (toLowerCase action) (str "shorten")); [apply Hquoted|].
    destruct (JS.eqb (toLowerCase action) (str "formalize")); [apply Hquoted|].
    intros H. apply app_inv_head in H. apply (Hquoted _ _ _ H).
Qed.

End Prompts.

Section PromptsExamples.
#[local] Existing Instance simplePlatform.

Lemma moreActions_use_generic_template_witness :
  contents (transformText_request (str "hi") (str "Make Sarcastic"))
  = qstr "Make Sarcastic the following text: 'hi'".
Proof.
  rewrite (@moreActions_use_generic_template simplePlatform (str "hi")
             (fun a _ => eq_refl) (str "Make Sarcastic")).
  - vm_compute. reflexivity.
  - right. left. reflexivity.
Defined.

End PromptsExamples.

Section PromptsMoreExamples.
#[local] Existing Instance simplePlatform.

Lemma prompts_keep_the_text_witness :
  contents (analyzeText_request (str "a plan"))
  = qstr "Analyze the following text and provide feedback on its tone, suggest three alternative phrasings, and list any grammatical mistakes. Text: 'a plan'"
  /\ (forall t : jsstring,
        contents (transformText_request t (str "Simplify"))
        = str "Simplify the following text: " ++ [dquote] ++ t ++ [dquote])
  /\ contents (analyzeText_request (str "a plan"))
     <> contents (analyzeText_request (str "a plot"))
  /\ contents (transformText_request (str "a plan") (str "Simplify"))
     <> contents (transformText_request (str "a plot") (str "Simplify")).
Proof.
  destruct (prompts_keep_the_text (str "a plan") (str "a plot") (str "Simplify"))
    as (Hform & (instruction & Hwhich & Hshape) & Hone & Htwo).
  split; [rewrite Hform; vm_compute; reflexivity|].
  split.
  { intros t. rewrite (Hshape t). f_equal.
    pose proof (Hshape []) as Hempty. vm_compute in Hempty.
    destruct Hwhich as [-> | [-> | ->]];
      first [ discriminate Hempty | vm_compute; reflexivity ]. }
  split; intros H.
  - apply Hone in H. vm_compute in H. discriminate H.
  - apply Htwo in H. vm_compute in H. discriminate H.
Defined.

End PromptsMoreExamples.

(* ================================================================== *)
(** * The theme *)

Lemma theme_invariant (s : Theme.ThemeState) :
  Theme.running s ->
  Theme.theme s <> []
  /\ Theme.storedTheme s = Some (Theme.theme s)
  /\ Theme.darkClass s = JS.eqb (Theme.theme s) (str "dark").
Proof.
  induction 1 as [saved prefersDark hadDarkClass | s Hs IH].
  - unfold Theme.start, Theme.themeEffect, Theme.initializeTheme. cbn.
    destruct saved as [[|c t]|]; [destruct prefersDark | | destruct prefersDark];
      cbn; repeat split; discriminate.
  - unfold Theme.toggleTheme, Theme.theme_set.
    destruct (JS.eqb (if JS.eqb (Theme.theme s) (str "light")
                      then str "dark" else str "light") (Theme.theme s));
      [exact IH|].
    destruct (JS.eqb (Theme.theme s) (str "light")); cbn;
      repeat split; discriminate.
Qed.

(** X17.  While the page runs, the theme is in the storage and the class
    [dark] is on the document exactly when the theme is [dark]; so loading
    the page again with that storage gives back the very state it was in,
    whatever the system prefers then and whatever class the document
    starts with. *)
Theorem theme_restored_on_reload
    (s : Theme.ThemeState) (prefersDark hadDarkClass : bool) :
  Theme.running s ->
  Theme.start (Theme.storedTheme s) prefersDark hadDarkClass = s
  /\ (Theme.darkClass s = true <-> Theme.theme s = str "dark").
Proof.
  intros Hs. destruct (theme_invariant s Hs) as (Hne & Hstored & Hdark).
  split.
  - destruct s as [t stored dark]. cbn in *. subst stored dark.
    destruct t as [|c t]; [contradiction Hne; reflexivity|].
    reflexivity.
  - rewrite Hdark. apply eqb_spec.
Qed.

(** X18.  [toggleTheme] turns [light] into [dark] and anything else,
    [dark] or a value that came out of the storage unchecked, into
    [light], and the new theme is stored.  So toggling twice gives the
    theme back exactly when it was [light] or [dark]. *)
Theorem toggleTheme_switches (s : Theme.ThemeState) :
  (Theme.theme s = str "light" ->
   Theme.theme (Theme.toggleTheme s) = str "dark")
  /\ (Theme.theme s <> str "light" ->
      Theme.theme (Theme.toggleTheme s) = str "light")
  /\ Theme.storedTheme (Theme.toggleTheme s)
     = Some (Theme.theme (Theme.toggleTheme s))
  /\ (Theme.theme (Theme.toggleTheme (Theme.toggleTheme s)) = Theme.theme s
      <-> Theme.theme s = str "light" \/ Theme.theme s = str "dark").
Proof.
  assert (Hlight : forall s0, Theme.theme s0 = str "light" ->
            Theme.toggleTheme s0
            = Theme.themeEffect (Theme.set_theme (str "dark") s0)).
  { intros s0 H. unfold Theme.toggleTheme, Theme.theme_set. rewrite H.
    reflexivity. }
  assert (Hother : forall s0, Theme.theme s0 <> str "light" ->
            Theme.toggleTheme s0
            = Theme.themeEffect (Theme.set_theme (str "light") s0)).
  { intros s0 H. unfold Theme.toggleTheme, Theme.theme_set.
    pose proof H as H'. apply eqb_neq in H'. rewrite H'.
    assert (Hsym : JS.eqb (str "light") (Theme.theme s0) = false)
      by (apply eqb_neq; congruence).
    rewrite Hsym. reflexivity. }
  assert (Hcases : Theme.theme s = str "light" \/ Theme.theme s <> str "light").
  { destruct (JS.eqb (Theme.theme s) (str "light")) eqn:E.
    - left. apply eqb_spec. exact E.
    - right. apply eqb_neq. exact E. }
  split; [intros H; rewrite (Hlight s H); reflexivity|].
  split; [intros H; rewrite (Hother s H); reflexivity|].
  split.
  - destruct Hcases as [H | H];
      [rewrite (Hlight s H) | rewrite (Hother s H)]; reflexivity.
  - destruct Hcases as [H | H].
    + rewrite (Hlight s H).
      rewrite Hother by (cbn; discriminate).
      rewrite H. split; [intros _; left; reflexivity | reflexivity].
    + rewrite (Hother s H).
      rewrite Hlight by reflexivity. cbn [Theme.themeEffect Theme.theme Theme.set_theme].
      split.
      * intros Hback. right. symmetry. exact Hback.
      * intros [Hl | Hd]; [contradiction | symmetry; exact Hd].
Qed.

Lemma theme_restored_on_reload_witness :
  Theme.running (Theme.toggleTheme (Theme.start None false false))
  /\ Theme.theme (Theme.toggleTheme (Theme.start None false false)) = str "dark"
  /\ Theme.start
       (Theme.storedTheme (Theme.toggleTheme (Theme.start None false false)))
       false false
     = Theme.toggleTheme (Theme.start None false false).
Proof.
  assert (H : Theme.running (Theme.toggleTheme (Theme.start None false false)))
    by (apply Theme.running_toggle, Theme.running_start).
  split; [exact H|]. split; [vm_compute; reflexivity|].
  exact (proj1 (theme_restored_on_reload _ false false H)).
Defined.

Lemma toggleTheme_switches_witness :
  Theme.theme (Theme.start (Some (str "blue")) true false) = str "blue"
  /\ Theme.theme (Theme.toggleTheme (Theme.start (Some (str "blue")) true false))
     = str "light"
  /\ Theme.theme (Theme.toggleTheme
                    (Theme.toggleTheme (Theme.start (Some (str "blue")) true false)))
     <> str "blue".
Proof.
  assert (H : Theme.theme (Theme.start (Some (str "blue")) true false)
              <> str "light") by (vm_compute; discriminate).
  destruct (toggleTheme_switches (Theme.start (Some (str "blue")) true false))
    as (_ & Hother & _ & Htwice).
  split; [vm_compute; reflexivity|]. split; [exact (Hother H)|].
  intros Hback.
  assert (Hsame : Theme.theme (Theme.toggleTheme
                    (Theme.toggleTheme (Theme.start (Some (str "blue")) true false)))
                  = Theme.theme (Theme.start (Some (str "blue")) true false))
    by (rewrite Hback; vm_compute; reflexivity).
  destruct (proj1 Htwice Hsame) as [Hl | Hd];
    [vm_compute in Hl; discriminate Hl | vm_compute in Hd; discriminate Hd].
Defined.

(* ================================================================== *)
(** * The resize handle *)

Lemma drag_listeners_paired (w : World) (events : list Drag.MouseEvent) :
  Drag.mousemoveListener (fold_left Drag.dispatch events (Drag.loaded w))
  = Drag.mouseupListener (fold_left Drag.dispatch events (Drag.loaded w)).
Proof.
  assert (H : forall p, Drag.mousemoveListener p = Drag.mouseupListener p ->
            Drag.mousemoveListener (fold_left Drag.dispatch events p)
            = Drag.mouseupListener (fold_left Drag.dispatch events p)).
  { induction events as [|e events IH]; intros p Hp; [exact Hp|].
    simpl. apply IH. destruct e; simpl.
    - reflexivity.
    - destruct (Drag.mousemoveListener p) eqn:E; cbn; congruence.
    - destruct (Drag.mouseupListener p) eqn:E; cbn; congruence. }
  apply H. reflexivity.
Qed.

Lemma moves_without_listener (moves : list (float * float)) (p : Drag.Page) :
  Drag.mousemoveListener p = false ->
  fold_left Drag.dispatch (mouseMoves moves) p = p.
Proof.
  intros Hoff. induction moves as [|m moves IH]; [reflexivity|].
  simpl. rewrite Hoff. exact IH.
Qed.

(** X19.  The width follows the mouse only between a press on the handle
    and the next release.  Whatever happened before, a move after a press
    is a [doResize]; after a release neither listener is left, however
    often the handle was pressed, and any number of moves leaves the
    component as it was; so do moves before the first press. *)
Theorem resize_only_while_dragging
    (w : World) (events : list Drag.MouseEvent) (moves : list (float * float))
    (clientX innerWidth : float) :
  Drag.world
    (Drag.dispatch
       (Drag.dispatch (fold_left Drag.dispatch events (Drag.loaded w)) Drag.Mousedown)
       (Drag.Mousemove clientX innerWidth))
  = doResize clientX innerWidth
      (Drag.world (fold_left Drag.dispatch events (Drag.loaded w)))
  /\ fold_left Drag.dispatch (mouseMoves moves)
       (Drag.dispatch (fold_left Drag.dispatch events (Drag.loaded w)) Drag.Mouseup)
     = Drag.loaded (Drag.world (fold_left Drag.dispatch events (Drag.loaded w)))
  /\ fold_left Drag.dispatch (mouseMoves moves) (Drag.loaded w) = Drag.loaded w.
Proof.
  split; [reflexivity|]. split.
  - pose proof (drag_listeners_paired w events) as Hpaired.
    destruct (fold_left Drag.dispatch events (Drag.loaded w))
      as [w' move up]. cbn in Hpaired. subst move.
    destruct up; cbn [Drag.dispatch Drag.mouseupListener Drag.stopResize
                      Drag.world Drag.mousemoveListener];
      apply moves_without_listener; reflexivity.
  - apply moves_without_listener. reflexivity.
Qed.

(* ================================================================== *)
(** * What a trigger analyses *)

Section CurrentTrigger.
Context {platform : Platform}.

Lemma triggerCurrent_same (w w' : World) :
  timers w' = timers w ->
  editorContent (app w') = editorContent (app w) ->
  now w' = now w ->
  triggerCurrent w -> triggerCurrent w'.
Proof.
  intros Ht Hc Hn H t Hin. rewrite Ht in Hin. rewrite Hc, Hn. exact (H t Hin).
Qed.

Lemma debounceEffect_triggerCurrent (w : World) :
  singleTrigger w -> triggerCurrent (debounceEffect w).
Proof.
  intros Hsingle t Hin.
  rewrite (debounceEffect_timers w Hsingle) in Hin.
  rewrite debounceEffect_editorContent.
  destruct (debounceEffect_flags w) as (_ & _ & -> & _).
  destruct (longEnough (stripHtml (editorContent (app w)))); [|contradiction].
  destruct Hin as [<- | []]. split; [reflexivity | apply N.le_refl].
Qed.

Lemma editorContent_set_triggerCurrent (v : jsstring) (w : World) :
  singleTrigger w -> triggerCurrent w -> triggerCurrent (editorContent_set v w).
Proof.
  intros Hsingle Hw. unfold editorContent_set, contentChange.
  destruct (JS.eqb v (editorContent (app w))); [exact Hw|].
  apply debounceEffect_triggerCurrent.
  apply (singleTrigger_same w); [repeat split | exact Hsingle].
Qed.

(** X20.  In every state of the component, a pending trigger is for the
    text of the content that the editor holds at that moment, and it is due
    at most 1000 ms from now: the debounced analysis never analyses a
    content that has been replaced since. *)
Theorem trigger_is_for_current_content (w : World) (t : Timer) :
  reachable w ->
  In t (timers w) ->
  timer_text t = stripHtml (editorContent (app w))
  /\ (timer_due t <= now w + 1000)%N.
Proof.
  intros Hw. revert t. change (triggerCurrent w).
  induction Hw as [|w e Hw IH].
  - unfold constructed. apply debounceEffect_triggerCurrent.
    apply (singleTrigger_same emptyWorld); [apply runAnalysis_schedule|].
    split; [discriminate | left; reflexivity].
  - pose proof (reachable_singleTrigger w Hw) as Hsingle.
    destruct e; cbn [step].
    + apply editorContent_set_triggerCurrent; assumption.
    + apply editorContent_set_triggerCurrent; assumption.
    + apply editorContent_set_triggerCurrent; assumption.
    + apply (triggerCurrent_same w); [| | |exact IH];
        unfold transformContent;
        match goal with |- context [match ?x with [] => _ | _ :: _ => _ end] =>
          destruct x end; reflexivity.
    + apply (triggerCurrent_same w); [| | |exact IH];
        unfold doResize;
        destruct (PrimFloat.ltb 25 (clientX / innerWidth * 100)
                  && PrimFloat.ltb (clientX / innerWidth * 100) 75)%bool;
        reflexivity.
    + destruct Hsingle as [_ [Hnone | (t0 & Ht0 & _ & _ & Hlong)]].
      * destruct (elapse_idle dt w Hnone) as (Hafter & _).
        intros t Hin. rewrite Hafter in Hin. contradiction.
      * destruct (N.lt_ge_cases (now w + dt) (timer_due t0)) as [Hearly | Hdue].
        -- destruct (elapse_early dt w t0 Ht0 Hearly) as (Hafter & Happ & _).
           intros t Hin. rewrite Hafter, <- Ht0 in Hin.
           destruct (IH t Hin) as [Htext Hbound].
           rewrite Happ, elapse_now. split; [exact Htext | lia].
        -- destruct (elapse_fire dt w t0 Ht0 Hdue (longEnough_not_empty _ Hlong))
             as (Hafter & _).
           intros t Hin. rewrite Hafter in Hin. contradiction.
    + unfold settle.
      destruct (lookupPending id (inflight w)) as [[text | sel action]|];
        [| |exact IH].
      * apply (triggerCurrent_same w); [| | |exact IH];
          destruct (analyzeText_result r); reflexivity.
      * unfold transformContent_resume.
        destruct (transformText_result r) as [[newText|]|err];
          [destruct sel | destruct sel|];
          try (apply (triggerCurrent_same w); [| | |exact IH]; reflexivity).
        apply (triggerCurrent_same
                 (editorContent_set
                    (str "<div>" ++ replaceNewlines newText ++ str "</div>")
                    (removePending id w))); try reflexivity.
        apply editorContent_set_triggerCurrent.
        -- apply (singleTrigger_same w); [repeat split | exact Hsingle].
        -- apply (triggerCurrent_same w); [| | |exact IH]; reflexivity.
Qed.

(** X21.  The answer to a transform of a selection is handed to the
    document as an [insertText] command, also when its text is
    [undefined]: the content signal, the pending trigger and the error are
    left alone.  The answer to a transform of the whole document whose
    text is [undefined] ends in the [catch]: the content stays and the
    error names the action. *)
Theorem transform_answer_paths
    (w : World) (id : N) (sel : bool) (action : jsstring)
    (newText : option jsstring) :
  lookupPending id (inflight w) = Some (PendingTransform sel action) ->
  (sel = true ->
   dom (settle id (Replied newText) w) = dom w ++ [InsertText newText]
   /\ editorContent (app (settle id (Replied newText) w)) = editorContent (app w)
   /\ timers (settle id (Replied newText) w) = timers w
   /\ error (app (settle id (Replied newText) w)) = error (app w)
   /\ isLoading (app (settle id (Replied newText) w)) = false)
  /\ (sel = false -> newText = None ->
      editorContent (app (settle id (Replied newText) w)) = editorContent (app w)
      /\ dom (settle id (Replied newText) w) = dom w
      /\ error (app (settle id (Replied newText) w))
         = Some (str "Failed to '" ++ action ++ str "' text. Please try again.")
      /\ isLoading (app (settle id (Replied newText) w)) = false).
Proof.
  intros Hid. split.
  - intros ->. unfold settle. rewrite Hid. repeat split.
  - intros -> ->. unfold settle. rewrite Hid. repeat split.
Qed.

End CurrentTrigger.

Section CurrentTriggerExamples.
#[local] Existing Instance simplePlatform.

Lemma trigger_is_for_current_content_witness :
  reachable (step constructed (Input (str "<div>a brand new text</div>")))
  /\ timers (step constructed (Input (str "<div>a brand new text</div>")))
     = [trigger 2 0 (str "a brand new text")]
  /\ timer_text (trigger 2 0 (str "a brand new text"))
     = stripHtml (editorContent
                    (app (step constructed (Input (str "<div>a brand new text</div>"))))).
Proof.
  assert (H1 : reachable (step constructed (Input (str "<div>a brand new text</div>"))))
    by (apply reachable_step, reachable_constructed).
  assert (H2 : timers (step constructed (Input (str "<div>a brand new text</div>")))
               = [trigger 2 0 (str "a brand new text")])
    by (vm_compute; reflexivity).
  split; [exact H1|]. split; [exact H2|].
  apply (trigger_is_for_current_content _ _ H1).
  rewrite H2. left. reflexivity.
Defined.

Lemma transform_answer_paths_witness :
  lookupPending 2 (inflight (transformContent (str "shorten") None constructed))
  = Some (PendingTransform false (str "shorten"))
  /\ error (app (settle 2 (Replied None)
                   (transformContent (str "shorten") None constructed)))
     = Some (str "Failed to 'shorten' text. Please try again.")
  /\ editorContent (app (settle 2 (Replied None)
                           (transformContent (str "shorten") None constructed)))
     = initialContent.
Proof.
  assert (H : lookupPending 2 (inflight (transformContent (str "shorten") None
                                           constructed))
              = Some (PendingTransform false (str "shorten")))
    by (vm_compute; reflexivity).
  destruct (proj2 (transform_answer_paths
                     (transformContent (str "shorten") None constructed)
                     2%N false (str "shorten") None H) eq_refl eq_refl)
    as (Hcontent & _ & Herror & _).
  split; [exact H|]. split; [exact Herror|].
  rewrite Hcontent. vm_compute. reflexivity.
Defined.

End CurrentTriggerExamples.
